(** * IMVU-JS: the session client and its payload normalisation

    A shallow embedding of [IMVUClient] (the client class imported by
    [src/server/index.js] as [./imvu-client.js]): the login handshake, the
    query resolution and the three payload parsers, with the JavaScript
    values and coercions they rely on. *)

From Stdlib Require Import String Ascii List ZArith Bool Lia DecimalString.
Import ListNotations.
Open Scope string_scope.
Set Warnings "-register-all".

(* ================================================================= *)
(** ** JavaScript values, as [JSON.parse] and property reads produce them *)

Module Js.

(** Numbers are the integer-valued ones (they print in decimal); objects
    list their own properties in creation order (a key is read through its
    first binding); strings are sequences of 8-bit characters.  Properties
    inherited from a prototype (methods such as [toString]) are not part of
    the model: none of the keys the client reads by name is one. *)
Inductive value : Type :=
| JUndefined
| JNull
| JBool (b : bool)
| JNum (z : Z)
| JStr (s : string)
| JArr (elems : list value)
| JObj (props : list (string * value)).

(** ToBoolean. *)
Definition truthy (v : value) : bool :=
  match v with
  | JUndefined | JNull => false
  | JBool b => b
  | JNum z => negb (z =? 0)%Z
  | JStr s => negb (s =? "")
  | JArr _ | JObj _ => true
  end.

(** [a || b] and [a && b]. *)
Definition js_or (a b : value) : value := if truthy a then a else b.
Definition js_and (a b : value) : value := if truthy a then b else a.

Declare Scope js_scope.
Delimit Scope js_scope with js.
Infix "||" := js_or (at level 50, left associativity) : js_scope.
Infix "&&" := js_and (at level 40, left associativity) : js_scope.

Definition nullish (v : value) : bool :=
  match v with JUndefined | JNull => true | _ => false end.

Definition string_of_Z (z : Z) : string := NilZero.string_of_int (Z.to_int z).
Definition string_of_nat (n : nat) : string := NilZero.string_of_uint (Nat.to_uint n).

(** ToString, as template literals and computed property keys apply it.
    [Array.prototype.join] prints [null] and [undefined] elements as the
    empty string.  It is what JavaScript prints on the values called
    [tame] below; on an object with an own [toString] property ToString
    throws ([unprintable]), and a number from 2^53 on prints as the
    nearest double does. *)
Fixpoint toString (v : value) : string :=
  match v with
  | JUndefined => "undefined"
  | JNull => "null"
  | JBool true => "true"
  | JBool false => "false"
  | JNum z => string_of_Z z
  | JStr s => s
  | JArr elems =>
      let elem (x : value) : string :=
        match x with
        | JUndefined | JNull => ""
        | _ => toString x
        end in
      (fix join (l : list value) : string :=
         match l with
         | [] => ""
         | [x] => elem x
         | x :: rest => elem x ++ "," ++ join rest
         end) elems
  | JObj _ => "[object Object]"
  end.

Fixpoint lookup (k : string) (props : list (string * value)) : option value :=
  match props with
  | [] => None
  | (k', v) :: rest => if k' =? k then Some v else lookup k rest
  end.

(** The position a canonical array-index key denotes, among [n] elements. *)
Definition index_of_key (k : string) (n : nat) : option nat :=
  find (fun i => string_of_nat i =? k) (seq 0 n).

Fixpoint chars (s : string) : list value :=
  match s with
  | EmptyString => []
  | String c rest => JStr (String c EmptyString) :: chars rest
  end.

Definition element (k : string) (l : list value) : value :=
  if k =? "length" then JNum (Z.of_nat (List.length l))
  else match index_of_key k (List.length l) with
       | Some i => nth i l JUndefined
       | None => JUndefined
       end.

(** [o[k]] on a value that is neither [null] nor [undefined]. *)
Definition prop (o : value) (k : string) : value :=
  match o with
  | JObj props => match lookup k props with Some v => v | None => JUndefined end
  | JArr elems => element k elems
  | JStr s => element k (chars s)
  | _ => JUndefined
  end.

(** [Object.keys(o)].  Index-like keys of an object come first in
    JavaScript; none of them contains a letter, so a search for a key that
    does meets the same keys in the same order. *)
Definition keys (o : value) : list string :=
  match o with
  | JObj props => map fst props
  | JArr elems => map string_of_nat (seq 0 (List.length elems))
  | JStr s => map string_of_nat (seq 0 (String.length s))
  | _ => []
  end.

(** [v === s] for a string literal [s]. *)
Definition is_str (v : value) (s : string) : bool :=
  match v with JStr s' => s' =? s | _ => false end.

(** [String.prototype.includes]. *)
Fixpoint includes (s needle : string) : bool :=
  prefix needle s ||
  match s with
  | EmptyString => false
  | String _ rest => includes rest needle
  end.

Fixpoint drop (n : nat) (s : string) : string :=
  match n, s with
  | O, _ => s
  | S n', String _ rest => drop n' rest
  | S _, EmptyString => EmptyString
  end.

(** [s.replace(needle, '')] with a string pattern: the first occurrence goes. *)
Fixpoint remove_first (needle s : string) : string :=
  if prefix needle s then drop (String.length needle) s
  else match s with
       | EmptyString => EmptyString
       | String c rest => String c (remove_first needle rest)
       end.

(** [v > 0] for what a [length] read yields: the number an array or a
    string answers, or the [length] property of an object when that is a
    number or a boolean.  (A string or array stored there would go through
    ToNumber, which is not modelled: it compares as not greater.) *)
Definition gt_zero (v : value) : bool :=
  match v with
  | JNum z => (0 <? z)%Z
  | JBool b => b
  | _ => false
  end.

End Js.
Import Js.

(* ================================================================= *)
(** ** Regular expressions, for the literal [/^\d+$/] *)

Module Regexp.

Inductive regex : Type :=
| Void
| Eps
| Class (p : ascii -> bool)
| Seq (r s : regex)
| Alt (r s : regex)
| Star (r : regex).

Fixpoint nullable (r : regex) : bool :=
  match r with
  | Void => false
  | Eps => true
  | Class _ => false
  | Seq r s => nullable r && nullable s
  | Alt r s => nullable r || nullable s
  | Star _ => true
  end.

(** Brzozowski derivative. *)
Fixpoint deriv (c : ascii) (r : regex) : regex :=
  match r with
  | Void | Eps => Void
  | Class p => if p c then Eps else Void
  | Seq r s =>
      if nullable r then Alt (Seq (deriv c r) s) (deriv c s)
      else Seq (deriv c r) s
  | Alt r s => Alt (deriv c r) (deriv c s)
  | Star r => Seq (deriv c r) (Star r)
  end.

(** [/^r$/.test(s)]: without the [m] flag the anchors are the two ends of
    the input. *)
Fixpoint test (r : regex) (s : string) : bool :=
  match s with
  | EmptyString => nullable r
  | String c rest => test (deriv c r) rest
  end.

(** [\d] is [[0-9]]. *)
Definition digit (c : ascii) : bool :=
  (48 <=? nat_of_ascii c)%nat && (nat_of_ascii c <=? 57)%nat.

(** [\d+]. *)
Definition digits : regex := Seq (Class digit) (Star (Class digit)).

(** What the expression is meant to accept: one or more decimal digits and
    nothing else. *)
Fixpoint all_digits (s : string) : bool :=
  match s with
  | EmptyString => true
  | String c rest => digit c && all_digits rest
  end.

Definition decimal (s : string) : Prop :=
  s <> EmptyString /\ all_digits s = true.

End Regexp.
Import Regexp.

(* ================================================================= *)
(** ** The normalised records *)

(** A field that falls back to [new Date()] holds either the upstream
    value or a freshly constructed date. *)
Inductive timestamp : Type :=
| Upstream (v : value)
| NewDate.

(** [a || b || new Date()]. *)
Definition or_new_date (a b : value) : timestamp :=
  if truthy a then Upstream a
  else if truthy b then Upstream b
  else NewDate.

Module User.
Record t : Type := mk {
  id : value;
  username : value;
  displayName : value;
  gender : value;
  age : value;
  country : value;
  state : value;
  avatarImage : value;
  avatarPortraitImage : value;
  isVip : value;
  isCreator : value;
  isAp : value;
  isStaff : value;
  isAdult : value;
  isAgeVerified : value;
  created : timestamp;
  registered : timestamp
}.
End User.

Module Avatar.
Record t : Type := mk {
  lookUrl : value;
  assetUrl : value;
  gender : value;
  products : value
}.
End Avatar.

Module Profile.
Record t : Type := mk {
  image : value;
  online : value;
  username : value;
  displayName : value;
  followingCount : value;
  followerCount : value
}.
End Profile.

(** The object [getUserData] returns; [None] is [null]. *)
Module Combined.
Record t : Type := mk {
  user : User.t;
  avatar : option Avatar.t;
  profile : option Profile.t
}.
End Combined.

(* ================================================================= *)
(** ** The parsers *)

Open Scope js_scope.

(** The identifier of [parseUserData]: [data.id || data._id], then the
    search among the keys of [userData] itself. *)
Definition user_id (userData : value) : value :=
  let data := prop userData "data" in
  let id := prop data "id" || prop data "_id" in
  if (negb (truthy id) && truthy (prop userData "data"))%bool then
    match find (fun key => includes key "user-") (keys userData) with
    | Some idMatch => JStr (remove_first "user-" idMatch)
    | None => id
    end
  else id.

Definition parseUserData (userData : value) : option User.t :=
  if (negb (truthy userData) || negb (truthy (prop userData "data")))%bool then None
  else
    let data := prop userData "data" in
    let id := user_id userData in
    Some {|
      User.id := id || JStr "unknown";
      User.username := prop data "username" || prop data "avatarname" || JStr "";
      User.displayName := prop data "display_name" || prop data "displayName" || JStr "";
      User.gender := prop data "gender" || JStr "";
      User.age := prop data "age" || JNull;
      User.country := prop data "country" || JStr "";
      User.state := prop data "state" || JStr "";
      User.avatarImage := prop data "avatar_image" || prop data "avatarImage" || JStr "";
      User.avatarPortraitImage :=
        prop data "avatar_portrait_image" || prop data "avatarPortraitImage" || JStr "";
      User.isVip := prop data "is_vip" || prop data "isVip" || JBool false;
      User.isCreator := prop data "is_creator" || prop data "isCreator" || JBool false;
      User.isAp := prop data "is_ap" || prop data "isAp" || JBool false;
      User.isStaff := prop data "is_staff" || prop data "isStaff" || JBool false;
      User.isAdult := prop data "is_adult" || prop data "isAdult" || JBool false;
      User.isAgeVerified :=
        prop data "is_ageverified" || prop data "isAgeVerified" || JBool false;
      User.created := or_new_date (prop data "created") (prop data "created_datetime");
      User.registered :=
        or_new_date (prop data "registered") (prop data "registered_datetime")
    |}.

Definition parseAvatarData (avatarData : value) : option Avatar.t :=
  if (negb (truthy avatarData) || negb (truthy (prop avatarData "data")))%bool then None
  else
    let data := prop avatarData "data" in
    Some {|
      Avatar.lookUrl := prop data "look_url" || prop data "lookUrl" || JStr "";
      Avatar.assetUrl := prop data "asset_url" || prop data "assetUrl" || JStr "";
      Avatar.gender := prop data "gender" || JStr "";
      Avatar.products := prop data "products" || JArr []
    |}.

Definition parseProfileData (profileData : value) : option Profile.t :=
  if (negb (truthy profileData) || negb (truthy (prop profileData "data")))%bool then None
  else
    let data := prop profileData "data" in
    Some {|
      Profile.image := prop data "image" || JStr "";
      Profile.online := prop data "online" || JBool false;
      Profile.username := prop data "avatar_name" || prop data "avatarName" || JStr "";
      Profile.displayName := prop data "title" || JStr "";
      Profile.followingCount :=
        prop data "approx_following_count" || prop data "followingCount" || JNum 0;
      Profile.followerCount :=
        prop data "approx_follower_count" || prop data "followerCount" || JNum 0
    |}.

Close Scope js_scope.

(** The canonical fields fed from two source keys: the key tried first, the
    key tried second, the field and its default. *)
Definition dual (R : Type) : Type := (string * string * (R -> value) * value)%type.

Definition user_dual_fields : list (dual User.t) :=
  [ ("display_name", "displayName", User.displayName, JStr "");
    ("avatar_image", "avatarImage", User.avatarImage, JStr "");
    ("avatar_portrait_image", "avatarPortraitImage", User.avatarPortraitImage, JStr "");
    ("is_vip", "isVip", User.isVip, JBool false);
    ("is_creator", "isCreator", User.isCreator, JBool false);
    ("is_ap", "isAp", User.isAp, JBool false);
    ("is_staff", "isStaff", User.isStaff, JBool false);
    ("is_adult", "isAdult", User.isAdult, JBool false);
    ("is_ageverified", "isAgeVerified", User.isAgeVerified, JBool false) ].

Definition avatar_dual_fields : list (dual Avatar.t) :=
  [ ("look_url", "lookUrl", Avatar.lookUrl, JStr "");
    ("asset_url", "assetUrl", Avatar.assetUrl, JStr "") ].

Definition profile_dual_fields : list (dual Profile.t) :=
  [ ("avatar_name", "avatarName", Profile.username, JStr "");
    ("approx_following_count", "followingCount", Profile.followingCount, JNum 0);
    ("approx_follower_count", "followerCount", Profile.followerCount, JNum 0) ].

(* ================================================================= *)
(** ** The client: session state, upstream calls, exceptions *)

(** What a [throw] carries. *)
Inductive error : Type :=
| Error (message : string)       (* [new Error(message)] *)
| TypeError                      (* a property read on [null] or [undefined] *)
| AxiosError (response : value). (* a rejected call, with its [error.response] *)

(** [error.response?.data?.status]. *)
Definition response_status (e : error) : value :=
  match e with
  | AxiosError response =>
      if nullish response then JUndefined
      else if nullish (prop response "data") then JUndefined
      else prop (prop response "data") "status"
  | _ => JUndefined
  end.

Definition response_message (e : error) : value :=
  match e with
  | AxiosError response => prop (prop response "data") "message"
  | _ => JUndefined
  end.

(** One call through [this.http]. *)
Record call : Type := mkCall {
  method : string;
  url : string;
  params : value;
  body : value;
  headers : list (string * value)
}.

(** How a call ends: the promise resolves with a response whose [data] is
    the parsed body (every HTTP status resolves, [validateStatus] being
    constantly true), or it rejects. *)
Inductive transport : Type :=
| Resolved (data : value)
| Rejected (response : value).

(** The upstream API: its answer to a call, given the calls made before. *)
Definition upstream : Type := list call -> call -> transport.

Module Session.
Record t : Type := mk {
  authenticated : bool;
  sauce : value;
  username : value;
  password : value;
  common : list (string * value)  (* [http.defaults.headers.common] *)
}.
End Session.

(** The constructor's fields. *)
Definition constructor : Session.t :=
  {| Session.authenticated := false;
     Session.sauce := JStr "";
     Session.username := JStr "";
     Session.password := JStr "";
     Session.common := [] |}.

Record world : Type := mkWorld {
  this : Session.t;
  sent : list call   (* the calls made so far, oldest first *)
}.

Inductive outcome (A : Type) : Type :=
| Return (a : A)
| Throw (e : error).
Arguments Return {A} a.
Arguments Throw {A} e.

(** A method body: it reads the upstream, changes the world and returns or
    throws. *)
Definition M (A : Type) : Type := upstream -> world -> outcome A * world.

Definition ret {A} (a : A) : M A := fun _ w => (Return a, w).
Definition throw {A} (e : error) : M A := fun _ w => (Throw e, w).

Definition bind {A B} (m : M A) (k : A -> M B) : M B :=
  fun up w =>
    match m up w with
    | (Return a, w') => k a up w'
    | (Throw e, w') => (Throw e, w')
    end.

(** [try { m } catch (error) { handler }]. *)
Definition try_catch {A} (m : M A) (handler : error -> M A) : M A :=
  fun up w =>
    match m up w with
    | (Return a, w') => (Return a, w')
    | (Throw e, w') => handler e up w'
    end.

Notation "x <- m ;; k" := (bind m (fun x => k))
  (at level 61, m at next level, right associativity).
Notation "m ;;; k" := (bind m (fun _ => k))
  (at level 61, right associativity).

Definition read_this : M Session.t := fun _ w => (Return (this w), w).

Definition update (f : Session.t -> Session.t) : M unit :=
  fun _ w => (Return tt, {| this := f (this w); sent := sent w |}).

Definition set_authenticated (b : bool) (s : Session.t) : Session.t :=
  {| Session.authenticated := b;
     Session.sauce := Session.sauce s;
     Session.username := Session.username s;
     Session.password := Session.password s;
     Session.common := Session.common s |}.

Definition set_sauce (v : value) (s : Session.t) : Session.t :=
  {| Session.authenticated := Session.authenticated s;
     Session.sauce := v;
     Session.username := Session.username s;
     Session.password := Session.password s;
     Session.common := Session.common s |}.

Definition set_credentials (u p : value) (s : Session.t) : Session.t :=
  {| Session.authenticated := Session.authenticated s;
     Session.sauce := Session.sauce s;
     Session.username := u;
     Session.password := p;
     Session.common := Session.common s |}.

Fixpoint assign (k : string) (v : value) (hs : list (string * value))
  : list (string * value) :=
  match hs with
  | [] => [(k, v)]
  | (k', v') :: rest => if k' =? k then (k, v) :: rest else (k', v') :: assign k v rest
  end.

(** [this.http.defaults.headers.common[k] = v]. *)
Definition set_header (k : string) (v : value) (s : Session.t) : Session.t :=
  {| Session.authenticated := Session.authenticated s;
     Session.sauce := Session.sauce s;
     Session.username := Session.username s;
     Session.password := Session.password s;
     Session.common := assign k v (Session.common s) |}.

(** [await this.http.<method>(...)], yielding the response's [data]. *)
Definition http (method url : string) (params body : value) : M value :=
  fun up w =>
    let c := mkCall method url params body (Session.common (this w)) in
    let w' := {| this := this w; sent := sent w ++ [c] |} in
    match up (sent w) c with
    | Resolved data => (Return data, w')
    | Rejected response => (Throw (AxiosError response), w')
    end.

(** [o.k], which throws on [null] and [undefined]. *)
Definition get (o : value) (k : string) : M value :=
  if nullish o then throw TypeError else ret (prop o k).

(* ================================================================= *)
(** ** The methods of [IMVUClient] *)

(** Console output is left out: a log line that prints a value can throw
    on it, which does not happen on a [tame] value (the server's handler
    models its log line with [print]).  An [await] is the point where the
    upstream's answer is read. *)

(** The test [response.denormalized && response.id], and the entry
    [response.denormalized[response.id]] it guards. *)
Definition has_root (response : value) : bool :=
  truthy (js_and (prop response "denormalized") (prop response "id")).

Definition root (response : value) : value :=
  prop (prop response "denormalized") (toString (prop response "id")).

Definition login (username password : value) : M bool :=
  try_catch
    (update (set_credentials username password) ;;;
     loginData <- http "POST" "/login" JUndefined
                    (JObj [("username", username); ("password", password)]) ;;
     status <- get loginData "status" ;;
     if is_str status "failure" then
       throw (Error ("Login failed: " ++ toString (prop loginData "message")))
     else
       meData <- http "GET" "/login/me" JUndefined JUndefined ;;
       status <- get meData "status" ;;
       if is_str status "failure" then
         throw (Error ("Failed to get auth token: " ++ toString (prop meData "message")))
       else
         (if has_root meData then
            let userData := root meData in
            data <- get userData "data" ;;
            token <- get data "sauce" ;;
            update (set_sauce (js_or token (JStr "")))
          else ret tt) ;;;
         self <- read_this ;;
         if negb (truthy (Session.sauce self)) then
           throw (Error "Failed to obtain authentication token")
         else
           update (set_header "x-imvu-sauce" (Session.sauce self)) ;;;
           update (set_header "x-imvu-application" (JStr "imvu-web")) ;;;
           update (set_authenticated true) ;;;
           ret true)
    (fun error =>
       update (set_authenticated false) ;;;
       update (set_sauce (JStr "")) ;;;
       throw error).

(** [request] as the client calls it, with no configuration or with the
    [params] of a search ([plain_config]): of [{ url, ...config }] only
    [url] and [params] reach the call. *)
Definition request (url : string) (config : value) : M value :=
  try_catch
    (data <- http "GET" url (prop config "params") JUndefined ;;
     status <- get data "status" ;;
     if is_str status "failure" then
       throw (Error ("API Error: " ++ toString (prop data "message")
                     ++ " (" ++ toString (prop data "error") ++ ")"))
     else ret data)
    (fun error =>
       if is_str (response_status error) "failure" then
         throw (Error ("API Error: " ++ toString (response_message error)))
       else throw error).

Definition getUserById (id : value) : M (option User.t) :=
  try_catch
    (response <- request ("/user/user-" ++ toString id) (JObj []) ;;
     if has_root response then
       let userData := root response in
       ret (parseUserData userData)
     else ret None)
    (fun _ => ret None).

Definition getUserByUsername (username : value) : M (option User.t) :=
  try_catch
    (response <- request "/user" (JObj [("params", JObj [("username", username)])]) ;;
     if has_root response then
       let userData := root response in
       data <- get userData "data" ;;
       if (truthy data && truthy (prop data "items")
           && gt_zero (prop (prop data "items") "length"))%bool then
         let userRef := prop (prop data "items") "0" in
         let actualUserData := prop (prop response "denormalized") (toString userRef) in
         ret (parseUserData actualUserData)
       else ret (parseUserData userData)
     else ret None)
    (fun _ => ret None).

Definition getAvatarData (userId : value) : M (option Avatar.t) :=
  try_catch
    (response <- request ("/avatar/avatar-" ++ toString userId) (JObj []) ;;
     if has_root response then
       let avatarData := root response in
       ret (parseAvatarData avatarData)
     else ret None)
    (fun _ => ret None).

Definition getProfileData (userId : value) : M (option Profile.t) :=
  try_catch
    (response <- request ("/profile/profile-user-" ++ toString userId) (JObj []) ;;
     if has_root response then
       let profileData := root response in
       ret (parseProfileData profileData)
     else ret None)
    (fun _ => ret None).

(** [/^\d+$/.test(query)]. *)
Definition isNumeric (query : value) : bool := test digits (toString query).

(** The first step of [getUserData]: by identifier when the query is
    numeric, by name otherwise. *)
Definition lookup_user (query : value) : M (option User.t) :=
  if isNumeric query then getUserById query else getUserByUsername query.

(** The two fetches of [Promise.all] are started in the order of the array,
    the avatar's first, and each is awaited behind its own [catch]; the
    upstream answers the profile call knowing the avatar call was made. *)
Definition getUserData (query : value) : M (option Combined.t) :=
  try_catch
    (user <- lookup_user query ;;
     match user with
     | None => ret None
     | Some user =>
         avatar <- try_catch (getAvatarData (User.id user)) (fun _ => ret None) ;;
         profile <- try_catch (getProfileData (User.id user)) (fun _ => ret None) ;;
         ret (Some {| Combined.user := user;
                      Combined.avatar := avatar;
                      Combined.profile := profile |})
     end)
    (fun error => throw error).

(* ================================================================= *)
(** ** Reading a run *)

(** The call [request url config] makes in world [w]. *)
Definition request_call (url : string) (config : value) (w : world) : call :=
  mkCall "GET" url (prop config "params") JUndefined (Session.common (this w)).

Definition record_call (c : call) (w : world) : world :=
  {| this := this w; sent := sent w ++ [c] |}.

(** What [request] makes of the upstream's answer. *)
Definition received (t : transport) : outcome value :=
  match t with
  | Resolved data =>
      if nullish data then Throw TypeError
      else if is_str (prop data "status") "failure" then
        Throw (Error ("API Error: " ++ toString (prop data "message")
                      ++ " (" ++ toString (prop data "error") ++ ")"))
      else Return data
  | Rejected response =>
      if is_str (response_status (AxiosError response)) "failure" then
        Throw (Error ("API Error: " ++ toString (response_message (AxiosError response))))
      else Throw (AxiosError response)
  end.


(** What the three direct fetches make of the upstream's answer. *)
Definition parsed {R} (parse : value -> option R) (t : transport) : option R :=
  match received t with
  | Return response => if has_root response then parse (root response) else None
  | Throw _ => None
  end.

(** The call of a search by name, and what [getUserByUsername] makes of
    the upstream's answer to it. *)
Definition search_call (username : value) (w : world) : call :=
  request_call "/user" (JObj [("params", JObj [("username", username)])]) w.

Definition searched (t : transport) : option User.t :=
  match received t with
  | Return response =>
      if has_root response then
        let userData := root response in
        if nullish userData then None
        else
          let items := prop (prop userData "data") "items" in
          if (truthy (prop userData "data") && truthy items
              && gt_zero (prop items "length"))%bool
          then parseUserData (prop (prop response "denormalized")
                                (toString (prop items "0")))
          else parseUserData userData
      else None
  | Throw _ => None
  end.

Definition user_call (id : value) (w : world) : call :=
  request_call ("/user/user-" ++ toString id) (JObj []) w.

Definition avatar_call (userId : value) (w : world) : call :=
  request_call ("/avatar/avatar-" ++ toString userId) (JObj []) w.

Definition profile_call (userId : value) (w : world) : call :=
  request_call ("/profile/profile-user-" ++ toString userId) (JObj []) w.

(** The calls a method adds to the log, and the first of them. *)
Definition calls_of {A} (m : M A) (up : upstream) (w : world) : list call :=
  skipn (List.length (sent w)) (sent (snd (m up w))).

Definition first_call {A} (m : M A) (up : upstream) (w : world) : option call :=
  hd_error (calls_of m up w).

(* ================================================================= *)
(** ** Sample payloads *)

Definition fresh : world := {| this := constructor; sent := [] |}.

(** An upstream that answers every call with the same body. *)
Definition always (data : value) : upstream := fun _ _ => Resolved data.

(** The envelope of a user resource. *)
Definition envelope (key : string) (entries : list (string * value)) : value :=
  JObj [("denormalized", JObj entries); ("id", JStr key)].

Definition entry (fields : list (string * value)) : value :=
  JObj [("data", JObj fields)].

(** A record carrying only [snake_case] flags, one of them [false]
    beside a [camelCase] twin that is [true]. *)
Definition mixed_flags : list (string * value) :=
  [("is_vip", JBool false); ("isVip", JBool true); ("display_name", JStr "Ann")].

(* ================================================================= *)
(** ** Statements about the fallback chain *)

(** Field [f] of record [r] follows the chain over [data]: the first key's
    value when that is truthy, else the second key's value when that is
    truthy, else the default. *)
Definition falls_back {R} (data : value) (r : R) (f : dual R) : Prop :=
  let '(first, second, field, default) := f in
  (truthy (prop data first) = true -> field r = prop data first)
  /\ (truthy (prop data first) = false -> truthy (prop data second) = true ->
      field r = prop data second)
  /\ (truthy (prop data first) = false -> truthy (prop data second) = false ->
      field r = default).

(** Two payloads agree on the two source keys of [f]. *)
Definition same_sources {R} (data data' : value) (f : dual R) : Prop :=
  let '(first, second, _, _) := f in
  prop data first = prop data' first /\ prop data second = prop data' second.

Definition same_field {R} (r r' : R) (f : dual R) : Prop :=
  let '(_, _, field, _) := f in field r = field r'.

(** A data object [d] carries [v] under key [k] and nothing under key
    [absent]; two data objects agree on every key other than [a] and [b]. *)
Definition carries (d : list (string * value)) (k : string) (v : value)
           (absent : string) : Prop :=
  lookup k d = Some v /\ lookup absent d = None.

Definition agree_elsewhere (d d' : list (string * value)) (a b : string) : Prop :=
  forall k, k <> a -> k <> b -> lookup k d = lookup k d'.

(** Two payloads that differ only in the convention under which they carry
    [v] for the dual field [f]. *)
Definition swapped {R} (f : dual R) (v : value) (payload payload' : value) : Prop :=
  let '(first, second, _, _) := f in
  exists d d',
    prop payload "data" = JObj d /\ prop payload' "data" = JObj d'
    /\ keys payload = keys payload'
    /\ carries d first v second /\ carries d' second v first
    /\ agree_elsewhere d d' first second.

(** A user envelope whose only entry is keyed [user-123] and whose data
    names no identifier. *)
Definition anonymous_envelope : value :=
  envelope "user-123" [("user-123", entry [("username", JStr "abc")])].

(** A search answer with nothing found, and one that refers to the entry
    [user-12345] of the same envelope. *)
Definition empty_search : value :=
  envelope "search-1" [("search-1", entry [("items", JArr [])])].


(** The record [parseUserData] builds when every source key is missing. *)
Definition defaults (id : value) : User.t :=
  {| User.id := id; User.username := JStr ""; User.displayName := JStr "";
     User.gender := JStr ""; User.age := JNull; User.country := JStr "";
     User.state := JStr ""; User.avatarImage := JStr "";
     User.avatarPortraitImage := JStr "";
     User.isVip := JBool false; User.isCreator := JBool false;
     User.isAp := JBool false; User.isStaff := JBool false;
     User.isAdult := JBool false; User.isAgeVerified := JBool false;
     User.created := NewDate; User.registered := NewDate |}.

(** The identifier [parseUserData] recovers from the keys of a payload. *)
Definition recovered (userData : value) : option string :=
  option_map (remove_first "user-")
             (find (fun key => includes key "user-") (keys userData)).

(** The two calls of [login]. *)
Definition login_call (username password : value) (w : world) : call :=
  mkCall "POST" "/login" JUndefined
         (JObj [("username", username); ("password", password)])
         (Session.common (this w)).

Definition me_call (w : world) : call :=
  mkCall "GET" "/login/me" JUndefined JUndefined (Session.common (this w)).

(** An answer of [/login/me] that carries a token, and a body with neither
    a failure marker nor an envelope. *)
Definition me_envelope : value :=
  envelope "user-7" [("user-7", entry [("sauce", JStr "s3cr3t")])].

Definition bare_body : value := JObj [].

(** The world after a first, successful login. *)
Definition logged_in : world :=
  snd (login (JStr "ann") (JStr "pw") (always me_envelope) fresh).

(** An upstream that knows user 7 and its profile and rejects the call for
    the avatar. *)
Definition without_avatar : upstream :=
  fun _ c =>
    if url c =? "/user/user-7" then
      Resolved (envelope "user-7" [("user-7", entry [("id", JStr "7")])])
    else if url c =? "/profile/profile-user-7" then
      Resolved (envelope "profile-user-7"
                  [("profile-user-7", entry [("title", JStr "Seven")])])
    else Rejected JUndefined.


(** The same display name under either convention. *)
Definition snake_payload : value :=
  entry [("display_name", JStr "Ann"); ("gender", JStr "f")].

Definition camel_payload : value :=
  entry [("displayName", JStr "Ann"); ("gender", JStr "f")].

Definition display_name_field : dual User.t :=
  ("display_name", "displayName", User.displayName, JStr "").

(* ================================================================= *)
(** ** Values that print as modelled *)

Definition has_key (k : string) (props : list (string * value)) : bool :=
  existsb (fun kv => fst kv =? k) props.

(** ToString throws: on an object with an own [toString] property (in a
    parsed body it holds a value, which cannot be called, and the inherited
    [valueOf] answers the object itself), and on an array with such an
    element, [join] printing the elements in turn. *)
Fixpoint unprintable (v : value) : bool :=
  match v with
  | JObj props => has_key "toString" props
  | JArr elems =>
      (fix any (l : list value) : bool :=
         match l with
         | [] => false
         | x :: rest => unprintable x || any rest
         end) elems
  | _ => false
  end.

(** A [length] property that [gt_zero] compares as JavaScript does: not a
    string and not an array, which go through ToNumber. *)
Definition plain_length (props : list (string * value)) : bool :=
  match lookup "length" props with
  | Some (JStr _) | Some (JArr _) => false
  | _ => true
  end.

(** A value is tame when the coercions of the model, applied to it or to
    any value read out of it, give what JavaScript gives: no object in it
    has an own [toString] property or a [length] that is a string or an
    array, and its numbers are the integers below 2^53, which print as
    their decimal digits. *)
Fixpoint tame (v : value) : bool :=
  match v with
  | JNum z => (Z.abs z <? 2 ^ 53)%Z
  | JArr elems =>
      (fix all (l : list value) : bool :=
         match l with
         | [] => true
         | x :: rest => tame x && all rest
         end) elems
  | JObj props =>
      negb (has_key "toString" props)
      && plain_length props
      && (fix all (l : list (string * value)) : bool :=
            match l with
            | [] => true
            | (_, x) :: rest => tame x && all rest
            end) props
  | _ => true
  end.

(** An upstream all of whose answers are tame. *)
Definition tame_answer (t : transport) : bool :=
  match t with
  | Resolved data => tame data
  | Rejected response => tame response
  end.

Definition tame_upstream (up : upstream) : Prop :=
  forall (history : list call) (c : call), tame_answer (up history c) = true.

(** The configurations the client hands to [request]: none, or the
    [params] of a search.  ([request] spreads its configuration into the
    call, so a configuration with a [url] or a [method] of its own would
    redirect it.) *)
Definition plain_config (config : value) : Prop :=
  config = JObj [] \/ exists p, config = JObj [("params", p)].

(** A template literal [`${v}`] evaluated for a log line: it throws where
    ToString throws, and what it prints is not used. *)
Definition print (v : value) : M unit :=
  if unprintable v then throw TypeError else ret tt.

(* ================================================================= *)
(** ** The server shell ([src/server/index.js]) *)

Module Server.

(** The body handed to [res.json]: [{ success: false, error }] or
    [{ success: true, data }]. *)
Inductive body : Type :=
| Failure (error : string)
| Success (data : Combined.t).

(** A reply: the status set by [res.status] (200 when none is set) and the
    JSON body. *)
Record reply : Type := mkReply {
  status : nat;
  json : body
}.

(** [process.env]: a variable is a string or is not set. *)
Definition process_env : Type := string -> option string.

Definition getenv (env : process_env) (name : string) : value :=
  match env name with
  | Some s => JStr s
  | None => JUndefined
  end.

(** [initializeIMVU], run on the shared client once the server listens. *)
Definition initializeIMVU (env : process_env) : M unit :=
  try_catch
    (let username := js_or (getenv env "IMVU_USERNAME") (JStr "your_username") in
     let password := js_or (getenv env "IMVU_PASSWORD") (JStr "your_password") in
     if (is_str username "your_username" || is_str password "your_password")%bool then
       ret tt
     else
       login username password ;;;
       ret tt)
    (fun _ => ret tt).

(** The handler of [POST /api/avatar], given [req.body]. *)
Definition post_api_avatar (reqBody : value) : M reply :=
  try_catch
    (query <- get reqBody "query" ;;
     if negb (truthy query) then
       ret (mkReply 400 (Failure "Query parameter is required"))
     else
       print query ;;;
       userData <- getUserData query ;;
       match userData with
       | None => ret (mkReply 404 (Failure "Avatar não encontrado"))
       | Some data => ret (mkReply 200 (Success data))
       end)
    (fun _ => ret (mkReply 500 (Failure "Erro interno do servidor"))).

End Server.

(* ================================================================= *)
(** ** Further statements *)

(** The session [login] leaves behind when it throws, and when it returns,
    having stored the credentials [u] and [p] in session [s]. *)
Definition rejected_session (u p : value) (s : Session.t) : Session.t :=
  {| Session.authenticated := false;
     Session.sauce := JStr "";
     Session.username := u;
     Session.password := p;
     Session.common := Session.common s |}.

Definition accepted_session (u p token : value) (s : Session.t) : Session.t :=
  {| Session.authenticated := true;
     Session.sauce := token;
     Session.username := u;
     Session.password := p;
     Session.common :=
       assign "x-imvu-application" (JStr "imvu-web")
              (assign "x-imvu-sauce" token (Session.common s)) |}.

(** The answer to the credentials lets [login] go on to [/login/me]. *)
Definition passes (t : transport) : bool :=
  match t with
  | Resolved data => negb (nullish data) && negb (is_str (prop data "status") "failure")
  | Rejected _ => false
  end.

(** A field is settled: truthy, or the default of its chain. *)
Definition settled (v default : value) : Prop :=
  (truthy v = true \/ v = default) /\ v <> JUndefined.

Definition settled_stamp (t : timestamp) : Prop :=
  t = NewDate \/ exists v, t = Upstream v /\ truthy v = true.

(** Every field of the three records that holds a value, with the default
    it falls back to. *)
Definition user_fields : list ((User.t -> value) * value) :=
  [ (User.id, JStr "unknown"); (User.username, JStr ""); (User.displayName, JStr "");
    (User.gender, JStr ""); (User.age, JNull); (User.country, JStr "");
    (User.state, JStr ""); (User.avatarImage, JStr "");
    (User.avatarPortraitImage, JStr ""); (User.isVip, JBool false);
    (User.isCreator, JBool false); (User.isAp, JBool false);
    (User.isStaff, JBool false); (User.isAdult, JBool false);
    (User.isAgeVerified, JBool false) ].

Definition avatar_fields : list ((Avatar.t -> value) * value) :=
  [ (Avatar.lookUrl, JStr ""); (Avatar.assetUrl, JStr "");
    (Avatar.gender, JStr ""); (Avatar.products, JArr []) ].

Definition profile_fields : list ((Profile.t -> value) * value) :=
  [ (Profile.image, JStr ""); (Profile.online, JBool false);
    (Profile.username, JStr ""); (Profile.displayName, JStr "");
    (Profile.followingCount, JNum 0); (Profile.followerCount, JNum 0) ].

Definition all_settled {R} (r : R) (fields : list ((R -> value) * value)) : Prop :=
  Forall (fun f => settled (fst f r) (snd f)) fields.

(** Two timestamps agree: the same upstream value in both, or a fresh date
    in both (each with the instant at which it was made). *)
Definition same_stamp (t t' : timestamp) : Prop :=
  match t, t' with
  | Upstream v, Upstream v' => v = v'
  | NewDate, NewDate => True
  | _, _ => False
  end.

(** Two user records agree: field by field on the fields that hold values,
    and on the two timestamps as above. *)
Definition same_user (r r' : User.t) : Prop :=
  Forall (fun f => fst f r = fst f r') user_fields
  /\ same_stamp (User.created r) (User.created r')
  /\ same_stamp (User.registered r) (User.registered r').

(** An upstream answer from which a direct fetch gets a record: a body
    without failure marker whose root entry has a truthy [data]. *)
Definition usable (t : transport) : Prop :=
  exists response,
    t = Resolved response
    /\ nullish response = false
    /\ is_str (prop response "status") "failure" = false
    /\ has_root response = true
    /\ truthy (root response) = true
    /\ truthy (prop (root response) "data") = true.


(** An environment variable holds real credentials: it is set, not empty,
    and not the placeholder of [initializeIMVU]. *)
Definition configured (v : option string) (placeholder : string) : bool :=
  match v with
  | Some s => negb (s =? "") && negb (s =? placeholder)
  | None => false
  end.


(** A client that holds a token without having sent anything, and an
    envelope of [/login/me] whose root entry has no [sauce]. *)
Definition marked_world : world :=
  {| this := set_sauce (JStr "x") (set_authenticated true constructor); sent := [] |}.



(** A body that reports a failure, and a request that names user 7. *)
Definition failure_body : value :=
  JObj [("status", JStr "failure"); ("message", JStr "No such user");
        ("error", JStr "USER-404")].

Definition query_seven : value := JObj [("query", JStr "7")].


(* ================================================================= *)
(** * Properties *)

(** ** The coercions at work *)

Example toString_array :
  toString (JArr [JNum 1; JNull; JStr "a"; JArr [JBool true; JNum (-2)]]) = "1,,a,true,-2".
Proof. reflexivity. Qed.

Example prop_index : prop (JArr [JStr "user-12345"; JStr "user-2"]) "1" = JStr "user-2".
Proof. reflexivity. Qed.

Example prop_length : prop (JArr [JStr "user-12345"]) "length" = JNum 1.
Proof. reflexivity. Qed.

Example includes_marker :
  includes "https://api.imvu.com/user/user-8" "user-" = true
  /\ includes "data" "user-" = false.
Proof. split; reflexivity. Qed.

Example remove_first_marker :
  remove_first "user-" "user-123" = "123"
  /\ remove_first "user-" "profile-user-9-user-1" = "profile-9-user-1".
Proof. split; reflexivity. Qed.

Example test_digits :
  test digits "12345" = true /\ test digits "12a45" = false
  /\ test digits "" = false /\ test digits "-1" = false.
Proof. repeat split. Qed.

(** ** The expression [/^\d+$/] *)

Section DigitsExpression.

Lemma test_Void_Seq (r : regex) (s : string) : test (Seq Void r) s = false.
Proof. induction s as [|c s IH]; simpl; auto. Qed.

Lemma test_Alt (s : string) :
  forall r1 r2, test (Alt r1 r2) s = (test r1 s || test r2 s)%bool.
Proof. induction s as [|c s IH]; intros; simpl; auto. Qed.

Lemma test_more_digits (s : string) : test (Seq Eps (Star (Class digit))) s = all_digits s.
Proof.
  induction s as [|c s IH]; simpl; [reflexivity|].
  rewrite test_Alt, test_Void_Seq; simpl.
  destruct (digit c); simpl; [apply IH | apply test_Void_Seq].
Qed.

Lemma test_digits_decimal (s : string) : test digits s = true <-> decimal s.
Proof.
  unfold decimal, digits. destruct s as [|c s]; simpl.
  - split; [discriminate | intros [H _]; congruence].
  - destruct (digit c); simpl.
    + rewrite test_more_digits. split; [intros H; split; [discriminate | exact H] | tauto].
    + rewrite test_Void_Seq. split; [discriminate | tauto].
Qed.

End DigitsExpression.

Lemma isNumeric_decimal (q : string) : isNumeric (JStr q) = true <-> decimal q.
Proof. apply test_digits_decimal. Qed.

(** ** Runs of the fetching methods *)

Lemma request_run (url : string) (config : value) (up : upstream) (w : world) :
  request url config up w
  = (received (up (sent w) (request_call url config w)),
     record_call (request_call url config w) w).
Proof.
  unfold request, try_catch, bind, http, get, received, request_call, record_call.
  destruct (up _ _) as [data|response]; simpl.
  - destruct (nullish data); simpl; [reflexivity|].
    destruct (is_str (prop data "status") "failure"); reflexivity.
  - destruct (is_str _ "failure"); reflexivity.
Qed.

(** A direct fetch makes one call and never throws. *)
Lemma fetch_run {R} (parse : value -> option R) (url : string) (up : upstream) (w : world) :
  try_catch
    (response <- request url (JObj []) ;;
     if has_root response then ret (parse (root response)) else ret None)
    (fun _ => ret None) up w
  = (Return (parsed parse (up (sent w) (request_call url (JObj []) w))),
     record_call (request_call url (JObj []) w) w).
Proof.
  unfold try_catch, bind, parsed. rewrite request_run.
  destruct (received _) as [response|e]; simpl; [|reflexivity].
  destruct (has_root response); reflexivity.
Qed.

Lemma getUserById_run (id : value) (up : upstream) (w : world) :
  let c := request_call ("/user/user-" ++ toString id) (JObj []) w in
  getUserById id up w = (Return (parsed parseUserData (up (sent w) c)), record_call c w).
Proof. apply fetch_run. Qed.

Lemma getAvatarData_run (userId : value) (up : upstream) (w : world) :
  let c := request_call ("/avatar/avatar-" ++ toString userId) (JObj []) w in
  getAvatarData userId up w = (Return (parsed parseAvatarData (up (sent w) c)), record_call c w).
Proof. apply fetch_run. Qed.

Lemma getProfileData_run (userId : value) (up : upstream) (w : world) :
  let c := request_call ("/profile/profile-user-" ++ toString userId) (JObj []) w in
  getProfileData userId up w
  = (Return (parsed parseProfileData (up (sent w) c)), record_call c w).
Proof. apply fetch_run. Qed.

Lemma calls_of_record {A} (m : M A) (up : upstream) (w : world) (a : outcome A) (cs : list call) :
  m up w = (a, {| this := this w; sent := sent w ++ cs |}) ->
  calls_of m up w = cs.
Proof.
  intros H. unfold calls_of. rewrite H. simpl.
  rewrite skipn_app, skipn_all, Nat.sub_diag. reflexivity.
Qed.

(** ** Resource paths *)


(** ** Query classification *)

Lemma getUserByUsername_run (username : value) (up : upstream) (w : world) :
  let c := search_call username w in
  getUserByUsername username up w = (Return (searched (up (sent w) c)), record_call c w).
Proof.
  unfold getUserByUsername, searched, search_call, try_catch, bind, get, ret, throw.
  rewrite request_run.
  destruct (received _) as [response|e]; simpl; [|reflexivity].
  destruct (has_root response); simpl; [|reflexivity].
  destruct (nullish (root response)); simpl; [reflexivity|].
  match goal with |- context [if ?b then _ else _] => destruct b end; reflexivity.
Qed.

Lemma lookup_user_run (query : value) (up : upstream) (w : world) :
  exists (c : call) (found : option User.t),
    lookup_user query up w = (Return found, record_call c w)
    /\ c = (if isNumeric query then user_call query w else search_call query w).
Proof.
  unfold lookup_user. destruct (isNumeric query).
  - eexists _, _. split; [apply getUserById_run | reflexivity].
  - eexists _, _. split; [apply getUserByUsername_run | reflexivity].
Qed.

(** [getUserData] after its first step: nothing more when no user was
    found, else the two further fetches, the avatar's call going out first. *)
Lemma getUserData_run (query : value) (up : upstream) (w w1 : world)
      (found : option User.t) :
  lookup_user query up w = (Return found, w1) ->
  getUserData query up w
  = match found with
    | None => (Return None, w1)
    | Some user =>
        let ca := avatar_call (User.id user) w1 in
        let cp := profile_call (User.id user) (record_call ca w1) in
        (Return (Some {| Combined.user := user;
                         Combined.avatar := parsed parseAvatarData (up (sent w1) ca);
                         Combined.profile :=
                           parsed parseProfileData (up (sent w1 ++ [ca])%list cp) |}),
         record_call cp (record_call ca w1))
    end.
Proof.
  intros H. unfold getUserData, try_catch at 1, bind at 1. rewrite H.
  destruct found as [user|]; [|reflexivity].
  unfold bind at 1, try_catch at 1. rewrite getAvatarData_run. cbv zeta.
  unfold bind at 1, try_catch at 1. rewrite getProfileData_run. reflexivity.
Qed.

Lemma calls_of_getUserData (query : value) (up : upstream) (w : world) :
  exists rest,
    calls_of (getUserData query) up w
    = (if isNumeric query then user_call query w else search_call query w) :: rest.
Proof.
  destruct (lookup_user_run query up w) as (c & found & H & ->).
  unfold calls_of. rewrite (getUserData_run _ _ _ _ _ H).
  destruct found as [user|]; simpl.
  - exists [avatar_call (User.id user) (record_call
              (if isNumeric query then user_call query w else search_call query w) w);
            profile_call (User.id user) (record_call (avatar_call (User.id user)
              (record_call (if isNumeric query then user_call query w
                            else search_call query w) w))
              (record_call (if isNumeric query then user_call query w
                            else search_call query w) w))].
    rewrite <- !app_assoc, skipn_app, skipn_all, Nat.sub_diag. reflexivity.
  - exists []. rewrite skipn_app, skipn_all, Nat.sub_diag. reflexivity.
Qed.

(** C5: a query string made of one or more decimal digits and nothing else
    is resolved by identifier, every other query string by name: the first
    step of [getUserData] is [getUserById] in the one case and
    [getUserByUsername] in the other, and the first call that goes out is
    the GET of [/user/user-<query>], respectively the search on [/user]
    with the query as [username] parameter. *)
Theorem query_classification (q : string) (up : upstream) (w : world) :
  (decimal q ->
     lookup_user (JStr q) = getUserById (JStr q)
     /\ first_call (getUserData (JStr q)) up w
        = Some (mkCall "GET" ("/user/user-" ++ q) JUndefined JUndefined
                       (Session.common (this w))))
  /\ (~ decimal q ->
     lookup_user (JStr q) = getUserByUsername (JStr q)
     /\ first_call (getUserData (JStr q)) up w
        = Some (mkCall "GET" "/user" (JObj [("username", JStr q)]) JUndefined
                       (Session.common (this w)))).
Proof.
  destruct (calls_of_getUserData (JStr q) up w) as [rest Hcalls].
  unfold first_call, lookup_user. rewrite Hcalls.
  split; intros Hq.
  - apply isNumeric_decimal in Hq. rewrite Hq. split; reflexivity.
  - destruct (isNumeric (JStr q)) eqn:E.
    + apply isNumeric_decimal in E. contradiction.
    + split; reflexivity.
Qed.

(** ** Partial failure of the auxiliary fetches *)



(** ** The fallback chain of the parsers *)

Lemma js_or_chain (a b d : value) :
  js_or (js_or a b) d
  = if truthy a then a else if truthy b then b else d.
Proof.
  unfold js_or. destruct (truthy a) eqn:Ea; rewrite ?Ea; [reflexivity|].
  destruct (truthy b) eqn:Eb; rewrite ?Eb; reflexivity.
Qed.

Ltac chain_cases :=
  cbv [falls_back]; cbn [User.displayName User.avatarImage User.avatarPortraitImage
    User.isVip User.isCreator User.isAp User.isStaff User.isAdult User.isAgeVerified
    Avatar.lookUrl Avatar.assetUrl
    Profile.username Profile.followingCount Profile.followerCount];
  rewrite js_or_chain;
  repeat split; intros;
  repeat match goal with H : truthy _ = _ |- _ => rewrite H; clear H end;
  reflexivity.

Lemma user_fields_fall_back (userData : value) (r : User.t) :
  parseUserData userData = Some r ->
  Forall (falls_back (prop userData "data") r) user_dual_fields.
Proof.
  unfold parseUserData. destruct (_ || _)%bool; [discriminate|].
  intros [= <-]. repeat constructor; chain_cases.
Qed.

Lemma avatar_fields_fall_back (avatarData : value) (r : Avatar.t) :
  parseAvatarData avatarData = Some r ->
  Forall (falls_back (prop avatarData "data") r) avatar_dual_fields.
Proof.
  unfold parseAvatarData. destruct (_ || _)%bool; [discriminate|].
  intros [= <-]. repeat constructor; chain_cases.
Qed.

Lemma profile_fields_fall_back (profileData : value) (r : Profile.t) :
  parseProfileData profileData = Some r ->
  Forall (falls_back (prop profileData "data") r) profile_dual_fields.
Proof.
  unfold parseProfileData. destruct (_ || _)%bool; [discriminate|].
  intros [= <-]. repeat constructor; chain_cases.
Qed.

Lemma falls_back_same {R} (data data' : value) (r r' : R) (f : dual R) :
  falls_back data r f -> falls_back data' r' f -> same_sources data data' f ->
  same_field r r' f.
Proof.
  destruct f as [[[first second] field] default]. cbv [falls_back same_sources same_field].
  intros (H1 & H2 & H3) (H1' & H2' & H3') [E1 E2]. rewrite <- E1, <- E2 in *.
  destruct (truthy (prop data first)) eqn:T1.
  - rewrite H1, H1'; auto.
  - destruct (truthy (prop data second)) eqn:T2.
    + rewrite H2, H2'; auto.
    + rewrite H3, H3'; auto.
Qed.

(** C2, as the code has it: in [parseUserData], [parseProfileData] and
    [parseAvatarData] every field with two source keys takes the first
    (snake_case) key's value when that value is truthy, the second
    (camelCase) key's value when the first is absent or falsy and the
    second is truthy, and the default when neither is truthy; and a field's
    value is the same in two payloads that agree on its two keys, whatever
    else they hold. *)
Theorem fallback_chain_by_truthiness :
  (forall userData r, parseUserData userData = Some r ->
     Forall (falls_back (prop userData "data") r) user_dual_fields)
  /\ (forall profileData r, parseProfileData profileData = Some r ->
     Forall (falls_back (prop profileData "data") r) profile_dual_fields)
  /\ (forall avatarData r, parseAvatarData avatarData = Some r ->
     Forall (falls_back (prop avatarData "data") r) avatar_dual_fields)
  /\ (forall userData userData' r r' f,
     parseUserData userData = Some r -> parseUserData userData' = Some r' ->
     In f user_dual_fields ->
     same_sources (prop userData "data") (prop userData' "data") f ->
     same_field r r' f)
  /\ (forall profileData profileData' r r' f,
     parseProfileData profileData = Some r -> parseProfileData profileData' = Some r' ->
     In f profile_dual_fields ->
     same_sources (prop profileData "data") (prop profileData' "data") f ->
     same_field r r' f).
Proof.
  split; [exact user_fields_fall_back|].
  split; [exact profile_fields_fall_back|].
  split; [exact avatar_fields_fall_back|].
  split; intros p p' r r' f Hr Hr' Hin Hsame.
  - apply user_fields_fall_back in Hr, Hr'. rewrite Forall_forall in Hr, Hr'.
    eapply falls_back_same; eauto.
  - apply profile_fields_fall_back in Hr, Hr'. rewrite Forall_forall in Hr, Hr'.
    eapply falls_back_same; eauto.
Qed.

(** C2 as stated fails: [is_vip] is present with the value [false], and
    the record's [isVip] is the [true] of the camelCase key. *)
Lemma falsy_snake_case_value_is_passed_over :
  lookup "is_vip" mixed_flags = Some (JBool false)
  /\ option_map User.isVip (parseUserData (entry mixed_flags)) = Some (JBool true)
  /\ JBool true <> JBool false.
Proof. repeat split; discriminate. Qed.

(** ** Naming conventions commute *)

Lemma prop_object_truthy (o : value) (k : string) (d : list (string * value)) :
  prop o k = JObj d -> truthy o = true.
Proof.
  destruct o as [| |b|z|s|l|ps]; simpl; try discriminate; try reflexivity.
  destruct s; [|reflexivity]. unfold element. simpl.
  destruct (k =? "length"); discriminate.
Qed.

Ltac read_keys d Hv Habs Hrest :=
  repeat match goal with
    | |- context [lookup ?k d] =>
        first [ rewrite Hv | rewrite Habs | rewrite (Hrest k) by discriminate ]
    end.

Ltac split_fields Hin :=
  cbv [user_dual_fields avatar_dual_fields profile_dual_fields In] in Hin;
  repeat (destruct Hin as [Hin|Hin]; [subst|]); try contradiction.

Ltac swap_proof parser :=
  match goal with
  | H : swapped _ _ ?p ?p' |- _ =>
      destruct H as (d & d' & Hd & Hd' & Hkeys & [Hv Habs] & [Hv' Habs'] & Hrest);
      unfold parser, user_id;
      rewrite (prop_object_truthy _ _ _ Hd), (prop_object_truthy _ _ _ Hd'),
              ?Hkeys, Hd, Hd';
      cbn [prop truthy negb orb andb];
      read_keys d Hv Habs Hrest;
      rewrite ?Hv', ?Habs';
      rewrite !js_or_chain; cbn [truthy];
      reflexivity
  end.

Lemma swapped_parses_agree (v : value) (payload payload' : value) :
  (forall f, In f user_dual_fields -> swapped f v payload payload' ->
     parseUserData payload = parseUserData payload')
  /\ (forall f, In f avatar_dual_fields -> swapped f v payload payload' ->
     parseAvatarData payload = parseAvatarData payload')
  /\ (forall f, In f profile_dual_fields -> swapped f v payload payload' ->
     parseProfileData payload = parseProfileData payload').
Proof.
  repeat split; intros f Hin H; split_fields Hin.
  all: first [ swap_proof parseUserData | swap_proof parseAvatarData
             | swap_proof parseProfileData ].
Qed.

Lemma swapped_has_data {R} (f : dual R) (v : value) (payload payload' : value) :
  swapped f v payload payload' ->
  truthy payload = true /\ truthy (prop payload "data") = true.
Proof.
  destruct f as [[[first second] field] default].
  intros (d & d' & Hd & _). split.
  - eapply prop_object_truthy; eauto.
  - rewrite Hd. reflexivity.
Qed.

Lemma same_stamp_refl (t : timestamp) : same_stamp t t.
Proof. destruct t; simpl; auto. Qed.

Lemma same_user_refl (r : User.t) : same_user r r.
Proof.
  split; [|split; apply same_stamp_refl].
  apply Forall_forall. reflexivity.
Qed.

(** C8: for every field of [parseUserData], [parseAvatarData] and
    [parseProfileData] that has two source keys, and every value [v], take
    a payload that carries [v] under the first key and has no second key,
    and a payload that carries [v] under the second key and has no first
    key, the two alike otherwise.  Both are normalised to a record, and the
    two records agree: an avatar or a profile record is the same in both,
    and the two user records have the same value in every field and
    timestamps that are the same upstream value in both or a fresh date in
    both. *)
Theorem naming_convention_commutes (v : value) (payload payload' : value) :
  (forall f, In f user_dual_fields -> swapped f v payload payload' ->
     exists r r',
       parseUserData payload = Some r /\ parseUserData payload' = Some r'
       /\ same_user r r')
  /\ (forall f, In f avatar_dual_fields -> swapped f v payload payload' ->
     exists r,
       parseAvatarData payload = Some r /\ parseAvatarData payload' = Some r)
  /\ (forall f, In f profile_dual_fields -> swapped f v payload payload' ->
     exists r,
       parseProfileData payload = Some r /\ parseProfileData payload' = Some r).
Proof.
  destruct (swapped_parses_agree v payload payload') as (Hu & Ha & Hp).
  repeat split; intros f Hin H;
    destruct (swapped_has_data _ _ _ _ H) as [Ht Hd].
  - specialize (Hu f Hin H).
    destruct (parseUserData payload) as [r|] eqn:E.
    + exists r, r. split; [reflexivity|]. split; [symmetry; exact Hu|].
      apply same_user_refl.
    + unfold parseUserData in E. rewrite Ht, Hd in E. discriminate E.
  - specialize (Ha f Hin H).
    destruct (parseAvatarData payload) as [r|] eqn:E.
    + exists r. split; [reflexivity | symmetry; exact Ha].
    + unfold parseAvatarData in E. rewrite Ht, Hd in E. discriminate E.
  - specialize (Hp f Hin H).
    destruct (parseProfileData payload) as [r|] eqn:E.
    + exists r. split; [reflexivity | symmetry; exact Hp].
    + unfold parseProfileData in E. rewrite Ht, Hd in E. discriminate E.
Qed.

(** ** The identifier of a user record *)

Lemma truthy_prop (o : value) (k : string) : truthy (prop o k) = true -> truthy o = true.
Proof.
  destruct o as [| |b|z|s|l|ps]; simpl; try discriminate; try reflexivity.
  destruct s; [|reflexivity]. unfold element. simpl.
  destruct (k =? "length"); discriminate.
Qed.

Lemma truthy_not_nullish (v : value) : truthy v = true -> nullish v = false.
Proof. destruct v; simpl; try discriminate; reflexivity. Qed.

Lemma parseUserData_id (userData : value) (r : User.t) :
  parseUserData userData = Some r ->
  User.id r = js_or (user_id userData) (JStr "unknown").
Proof.
  unfold parseUserData. destruct (_ || _)%bool; [discriminate|].
  intros [= <-]. reflexivity.
Qed.

(** C10: a user payload whose [data] is an object with neither [id] nor
    [_id], and none of whose keys gives an identifier once [user-] is
    stripped, is still normalised to a record, with the identifier
    ["unknown"]; and the identifier of a normalised record is never
    [null], [undefined] or the empty string. *)
Theorem id_defaults_to_unknown :
  (forall (userData : value) (d : list (string * value)),
     prop userData "data" = JObj d ->
     lookup "id" d = None -> lookup "_id" d = None ->
     (recovered userData = None \/ recovered userData = Some "") ->
     exists r, parseUserData userData = Some r /\ User.id r = JStr "unknown")
  /\ (forall (userData : value) (r : User.t),
     parseUserData userData = Some r ->
     truthy (User.id r) = true
     /\ User.id r <> JNull /\ User.id r <> JUndefined /\ User.id r <> JStr "").
Proof.
  split.
  - intros userData d Hd Hid H_id Hrec.
    assert (Ht : truthy userData = true) by (eapply prop_object_truthy; eauto).
    unfold parseUserData. rewrite Ht, Hd. cbn [truthy negb orb].
    eexists. split; [reflexivity|]. cbn [User.id].
    unfold user_id. rewrite Hd. cbn [prop truthy]. rewrite Hid, H_id.
    unfold recovered in Hrec. cbn [js_or truthy negb andb].
    destruct (find _ (keys userData)) as [key|]; simpl in Hrec.
    + destruct Hrec as [Hrec|Hrec]; [discriminate|]. injection Hrec as ->. reflexivity.
    + reflexivity.
  - intros userData r H. rewrite (parseUserData_id _ _ H).
    assert (Ht : truthy (js_or (user_id userData) (JStr "unknown")) = true).
    { unfold js_or. destruct (truthy (user_id userData)) eqn:E; [exact E | reflexivity]. }
    split; [exact Ht|].
    repeat split; intros E; rewrite E in Ht; discriminate.
Qed.

(** What the search for an identifier does look at: the keys of the payload
    handed to [parseUserData], that is the envelope's entry, not the
    envelope. *)
Lemma id_recovered_from_own_keys (userData : value) (d : list (string * value))
      (r : User.t) (id : string) :
  prop userData "data" = JObj d ->
  lookup "id" d = None -> lookup "_id" d = None ->
  recovered userData = Some id -> id <> "" ->
  parseUserData userData = Some r ->
  User.id r = JStr id.
Proof.
  intros Hd Hid H_id Hrec Hne H. rewrite (parseUserData_id _ _ H).
  unfold user_id. rewrite Hd. cbn [prop truthy]. rewrite Hid, H_id.
  unfold recovered in Hrec. cbn [js_or truthy negb andb].
  destruct (find _ (keys userData)) as [key|]; simpl in Hrec; [|discriminate].
  injection Hrec as <-. unfold js_or. cbn [truthy].
  destruct (String.eqb_spec (remove_first "user-" key) ""); [contradiction | reflexivity].
Qed.

(** C3, evaluated: the envelope's only user entry is keyed [user-123], its
    data has neither [id] nor [_id], and the record returned for it has the
    identifier ["unknown"], not ["123"]: the keys searched are those of the
    entry ([data] alone here), and the envelope never reaches
    [parseUserData]. *)
Theorem envelope_key_is_not_searched :
  keys (prop anonymous_envelope "denormalized") = ["user-123"]
  /\ keys (root anonymous_envelope) = ["data"]
  /\ fst (getUserById (JStr "123") (always anonymous_envelope) fresh)
     = Return (Some {| User.id := JStr "unknown"; User.username := JStr "abc";
                       User.displayName := JStr ""; User.gender := JStr "";
                       User.age := JNull; User.country := JStr "";
                       User.state := JStr ""; User.avatarImage := JStr "";
                       User.avatarPortraitImage := JStr "";
                       User.isVip := JBool false; User.isCreator := JBool false;
                       User.isAp := JBool false; User.isStaff := JBool false;
                       User.isAdult := JBool false; User.isAgeVerified := JBool false;
                       User.created := NewDate; User.registered := NewDate |}).
Proof. repeat split. Qed.

(** ** Search answers *)

Lemma items_reach_the_check (response : value) (l : list value) :
  prop (prop (root response) "data") "items" = JArr l ->
  nullish (root response) = false
  /\ truthy (prop (root response) "data") = true
  /\ truthy (prop (prop (root response) "data") "items") = true.
Proof.
  intros H.
  assert (Hi : truthy (prop (prop (root response) "data") "items") = true)
    by (rewrite H; reflexivity).
  pose proof (truthy_prop _ _ Hi) as Hdata.
  pose proof (truthy_prop _ _ Hdata) as Hroot.
  auto using truthy_not_nullish.
Qed.

Lemma searched_resolved (response : value) :
  nullish response = false ->
  is_str (prop response "status") "failure" = false ->
  has_root response = true ->
  nullish (root response) = false ->
  searched (Resolved response)
  = let items := prop (prop (root response) "data") "items" in
    if (truthy (prop (root response) "data") && truthy items
        && gt_zero (prop items "length"))%bool
    then parseUserData (prop (prop response "denormalized") (toString (prop items "0")))
    else parseUserData (root response).
Proof.
  intros Hn Hs Hr Hu. unfold searched, received. rewrite Hn, Hs, Hr, Hu. reflexivity.
Qed.

(** How far the misrouting of an empty search answer goes: whenever the
    root entry holds an empty [items] list, the test for a search result
    fails on its length and [getUserByUsername] returns (it does not
    throw) the record [parseUserData] builds from that root entry itself,
    which is a record and not [null]. *)
Theorem empty_items_normalises_the_wrapper
        (username : value) (up : upstream) (w : world) (response : value) :
  up (sent w) (search_call username w) = Resolved response ->
  nullish response = false ->
  is_str (prop response "status") "failure" = false ->
  has_root response = true ->
  prop (prop (root response) "data") "items" = JArr [] ->
  exists r : User.t,
    parseUserData (root response) = Some r
    /\ getUserByUsername username up w
       = (Return (Some r), record_call (search_call username w) w).
Proof.
  intros Hup Hn Hs Hr Hitems.
  destruct (items_reach_the_check _ _ Hitems) as (Hu & Hd & Hi).
  rewrite getUserByUsername_run. cbv zeta. rewrite Hup.
  rewrite (searched_resolved _ Hn Hs Hr Hu). cbv zeta.
  rewrite Hitems, Hd. cbn [truthy andb prop element]. cbn.
  unfold parseUserData. rewrite Hd.
  assert (Ht : truthy (root response) = true) by (eapply truthy_prop; eauto).
  rewrite Ht. cbn [negb orb]. eauto.
Qed.

(** C1, evaluated: the search answer holds an empty [items] list, so it is
    a search result with no match; the test commented [Check if it's a
    search result] takes it for a user resource, and the result is a
    record made up from the wrapper entry, with the identifier
    ["unknown"] and every field at its default, where the claim, and the
    404 of the server, want [null]. *)
Lemma empty_items_is_not_null :
  prop (prop (root empty_search) "data") "items" = JArr []
  /\ fst (getUserByUsername (JStr "nobody") (always empty_search) fresh)
     = Return (Some (defaults (JStr "unknown")))
  /\ fst (getUserByUsername (JStr "nobody") (always empty_search) fresh) <> Return None.
Proof. repeat split. discriminate. Qed.


(** ** Login *)

Lemma login_handler_resets (username password : value) (up : upstream) (w w' : world)
      (e : error) :
  login username password up w = (Throw e, w') ->
  Session.authenticated (this w') = false /\ Session.sauce (this w') = JStr "".
Proof.
  unfold login, try_catch.
  match goal with
  | |- context [match ?m up w with _ => _ end] => destruct (m up w) as [[b|e0] w0]
  end.
  - discriminate.
  - intros [= _ <-]. split; reflexivity.
Qed.

(** X1: whatever [login] throws, it has first reset the session: it is left
    unauthenticated, with the empty token. *)
Theorem login_throw_resets (username password : value) (up : upstream) (w : world)
        (e : error) :
  fst (login username password up w) = Throw e ->
  let w' := snd (login username password up w) in
  Session.authenticated (this w') = false /\ Session.sauce (this w') = JStr "".
Proof.
  intros H w'. subst w'. destruct (login username password up w) as [o w1] eqn:E.
  simpl in H. subst o. exact (login_handler_resets _ _ _ _ _ _ E).
Qed.

(** A failure marker in the answer to the credentials makes [login] throw. *)
Lemma login_marker_throws (username password : value) (up : upstream) (w : world)
      (data : value) :
  up (sent w) (login_call username password w) = Resolved data ->
  is_str (prop data "status") "failure" = true ->
  exists e w', login username password up w = (Throw e, w').
Proof.
  intros Hup Hs.
  assert (Hn : nullish data = false).
  { destruct data; try reflexivity; discriminate. }
  unfold login, try_catch, bind, update, http, get, ret, throw.
  cbn [this sent set_credentials Session.common]. fold (login_call username password w).
  rewrite Hup. cbn iota beta. rewrite Hn. cbn iota beta. rewrite Hs. cbn iota beta.
  eauto.
Qed.

(** So does a failure marker in the answer of [/login/me]. *)
Lemma me_marker_throws (username password : value) (up : upstream) (w : world)
      (loginData meData : value) :
  up (sent w) (login_call username password w) = Resolved loginData ->
  nullish loginData = false ->
  is_str (prop loginData "status") "failure" = false ->
  up (sent w ++ [login_call username password w])%list (me_call w) = Resolved meData ->
  is_str (prop meData "status") "failure" = true ->
  exists e w', login username password up w = (Throw e, w').
Proof.
  intros Hup Hn Hs Hme Hms.
  assert (Hmn : nullish meData = false).
  { destruct meData; try reflexivity; discriminate. }
  unfold login, try_catch, bind, update, http, get, ret, throw.
  cbn [this sent set_credentials Session.common]. fold (login_call username password w).
  rewrite Hup. cbn iota beta. rewrite Hn. cbn iota beta. rewrite Hs. cbn iota beta.
  cbn [this sent set_credentials Session.common]. fold (me_call w).
  rewrite Hme. cbn iota beta. rewrite Hmn. cbn iota beta. rewrite Hms. cbn iota beta.
  eauto.
Qed.

(** X2: a login whose answer to the credentials, or
    whose answer of [/login/me], carries the failure marker ends
    unauthenticated with the empty token, whatever the session held. *)
Lemma failed_login_resets (username password : value) (up : upstream) (w : world)
      (loginData : value) :
  up (sent w) (login_call username password w) = Resolved loginData ->
  (is_str (prop loginData "status") "failure" = true
   \/ (nullish loginData = false
       /\ is_str (prop loginData "status") "failure" = false
       /\ exists meData,
           up (sent w ++ [login_call username password w])%list (me_call w)
           = Resolved meData
           /\ is_str (prop meData "status") "failure" = true)) ->
  let w' := snd (login username password up w) in
  Session.authenticated (this w') = false /\ Session.sauce (this w') = JStr "".
Proof.
  intros Hup H w'.
  assert (exists e w1, login username password up w = (Throw e, w1)) as (e & w1 & Hrun).
  { destruct H as [Hs | (Hn & Hs & meData & Hme & Hms)].
    - eapply login_marker_throws; eauto.
    - eapply me_marker_throws; eauto. }
  subst w'. pose proof (login_handler_resets _ _ _ _ _ _ Hrun) as Hreset.
  rewrite Hrun. exact Hreset.
Qed.

(** C4, evaluated: after a successful login the session holds a token; a
    second login in which [/login/me] answers a body with no failure marker
    and no envelope obtains no token, yet it returns [true] and leaves the
    session authenticated with the token of the first login. *)
Theorem stale_token_survives_login :
  Session.authenticated (this logged_in) = true
  /\ Session.sauce (this logged_in) = JStr "s3cr3t"
  /\ has_root bare_body = false
  /\ fst (login (JStr "ann") (JStr "wrong") (always bare_body) logged_in) = Return true
  /\ Session.authenticated
       (this (snd (login (JStr "ann") (JStr "wrong") (always bare_body) logged_in))) = true
  /\ Session.sauce
       (this (snd (login (JStr "ann") (JStr "wrong") (always bare_body) logged_in)))
     = JStr "s3cr3t".
Proof. repeat split. Qed.

(** ** Instances *)


Lemma decimal_12345 : decimal "12345".
Proof. split; [discriminate | reflexivity]. Qed.

Lemma not_decimal_abc : ~ decimal "abc".
Proof. intros [_ H]. discriminate H. Qed.

Lemma query_classification_witness :
  first_call (getUserData (JStr "12345")) (always anonymous_envelope) fresh
  = Some (mkCall "GET" "/user/user-12345" JUndefined JUndefined [])
  /\ first_call (getUserData (JStr "abc")) (always anonymous_envelope) fresh
     = Some (mkCall "GET" "/user" (JObj [("username", JStr "abc")]) JUndefined []).
Proof.
  split.
  - exact (proj2 (proj1 (query_classification "12345" (always anonymous_envelope) fresh)
                        decimal_12345)).
  - exact (proj2 (proj2 (query_classification "abc" (always anonymous_envelope) fresh)
                        not_decimal_abc)).
Defined.


Lemma fallback_chain_witness :
  Forall (falls_back (JObj mixed_flags)
            {| User.id := JStr "unknown"; User.username := JStr "";
               User.displayName := JStr "Ann"; User.gender := JStr "";
               User.age := JNull; User.country := JStr ""; User.state := JStr "";
               User.avatarImage := JStr ""; User.avatarPortraitImage := JStr "";
               User.isVip := JBool true; User.isCreator := JBool false;
               User.isAp := JBool false; User.isStaff := JBool false;
               User.isAdult := JBool false; User.isAgeVerified := JBool false;
               User.created := NewDate; User.registered := NewDate |})
         user_dual_fields.
Proof.
  exact (proj1 fallback_chain_by_truthiness (entry mixed_flags) _ eq_refl).
Defined.

Lemma sample_swapped : swapped display_name_field (JStr "Ann") snake_payload camel_payload.
Proof.
  exists [("display_name", JStr "Ann"); ("gender", JStr "f")],
         [("displayName", JStr "Ann"); ("gender", JStr "f")].
  repeat split. intros k Hs Hc. cbn [lookup].
  destruct (String.eqb_spec "display_name" k); [congruence|].
  destruct (String.eqb_spec "displayName" k); [congruence|]. reflexivity.
Qed.

Lemma naming_convention_witness :
  exists r r',
    parseUserData snake_payload = Some r /\ parseUserData camel_payload = Some r'
    /\ same_user r r'.
Proof.
  exact (proj1 (naming_convention_commutes (JStr "Ann") snake_payload camel_payload)
               display_name_field (or_introl eq_refl) sample_swapped).
Defined.

Lemma id_defaults_witness :
  exists r, parseUserData (root anonymous_envelope) = Some r /\ User.id r = JStr "unknown".
Proof.
  exact (proj1 id_defaults_to_unknown (root anonymous_envelope)
               [("username", JStr "abc")] eq_refl eq_refl eq_refl (or_introl eq_refl)).
Defined.

Lemma empty_items_witness :
  exists r : User.t,
    parseUserData (root empty_search) = Some r
    /\ getUserByUsername (JStr "nobody") (always empty_search) fresh
       = (Return (Some r), record_call (search_call (JStr "nobody") fresh) fresh).
Proof.
  exact (empty_items_normalises_the_wrapper (JStr "nobody") (always empty_search) fresh
           empty_search eq_refl eq_refl eq_refl eq_refl eq_refl).
Defined.


Lemma login_throw_witness :
  Session.authenticated
    (this (snd (login (JStr "ann") (JStr "wrong")
                  (always (JObj [("status", JStr "failure")])) logged_in))) = false
  /\ Session.sauce
       (this (snd (login (JStr "ann") (JStr "wrong")
                     (always (JObj [("status", JStr "failure")])) logged_in))) = JStr "".
Proof.
  exact (login_throw_resets (JStr "ann") (JStr "wrong")
           (always (JObj [("status", JStr "failure")])) logged_in
           (Error "Login failed: undefined") eq_refl).
Defined.

Lemma failed_login_witness :
  Session.sauce (this logged_in) = JStr "s3cr3t"
  /\ Session.authenticated
       (this (snd (login (JStr "ann") (JStr "wrong")
                     (always (JObj [("status", JStr "failure")])) logged_in))) = false
  /\ Session.sauce
       (this (snd (login (JStr "ann") (JStr "wrong")
                     (always (JObj [("status", JStr "failure")])) logged_in))) = JStr "".
Proof.
  split; [reflexivity|].
  exact (failed_login_resets (JStr "ann") (JStr "wrong")
           (always (JObj [("status", JStr "failure")])) logged_in
           (JObj [("status", JStr "failure")]) eq_refl (or_introl eq_refl)).
Defined.

(* ================================================================= *)
(** * Further properties of the client *)

(** ** [request] *)

(** X3: given one of the configurations the client uses (none, or the
    [params] of a search), [request] makes exactly one call, a GET of the
    given path with those [params], and leaves the session as it was; it
    returns a value exactly when the upstream resolves with a body that is
    neither [null] nor [undefined] and carries no failure marker, and what
    it returns is that body. *)
Theorem request_returns_the_body (url : string) (config : value) (up : upstream)
        (w : world) :
  plain_config config ->
  let c := mkCall "GET" url (prop config "params") JUndefined (Session.common (this w)) in
  calls_of (request url config) up w = [c]
  /\ this (snd (request url config up w)) = this w
  /\ (forall data,
        fst (request url config up w) = Return data
        <-> (up (sent w) c = Resolved data
             /\ nullish data = false
             /\ is_str (prop data "status") "failure" = false)).
Proof.
  intros _ c. split; [|split].
  - eapply calls_of_record. rewrite request_run. reflexivity.
  - rewrite request_run. reflexivity.
  - intros data. rewrite request_run. cbn [fst]. unfold request_call. fold c.
    unfold received. destruct (up (sent w) c) as [d|r].
    + destruct (nullish d) eqn:En; [split; [discriminate | intros ([= ->] & H & _); congruence]|].
      destruct (is_str (prop d "status") "failure") eqn:Es.
      * split; [discriminate | intros ([= ->] & _ & H); congruence].
      * split; [intros [= ->]; auto | intros ([= ->] & _); reflexivity].
    + destruct (is_str (response_status (AxiosError r)) "failure");
        (split; [discriminate | intros (H & _); discriminate H]).
Qed.

(** X4: how [request] fails, given one of the configurations the client
    uses.  A body with the failure marker, whose [message] and [error] are
    tame, gives [Error("API Error: <message> (<error>)")], the error thrown
    inside the [try] passing through the [catch] unchanged; a rejection
    whose response body has the failure marker and a tame [message] gives
    [Error("API Error: <message>")]; a rejection without the marker is
    thrown again as it came; a [null] body is a [TypeError]. *)
Theorem request_errors (url : string) (config : value) (up : upstream) (w : world) :
  plain_config config ->
  let c := request_call url config w in
  (forall data,
     up (sent w) c = Resolved data -> is_str (prop data "status") "failure" = true ->
     tame (prop data "message") = true -> tame (prop data "error") = true ->
     fst (request url config up w)
     = Throw (Error ("API Error: " ++ toString (prop data "message")
                     ++ " (" ++ toString (prop data "error") ++ ")")))
  /\ (forall response,
     up (sent w) c = Rejected response ->
     is_str (response_status (AxiosError response)) "failure" = true ->
     tame (prop (prop response "data") "message") = true ->
     fst (request url config up w)
     = Throw (Error ("API Error: "
                     ++ toString (prop (prop response "data") "message"))))
  /\ (forall response,
     up (sent w) c = Rejected response ->
     is_str (response_status (AxiosError response)) "failure" = false ->
     fst (request url config up w) = Throw (AxiosError response))
  /\ (forall data,
     up (sent w) c = Resolved data -> nullish data = true ->
     fst (request url config up w) = Throw TypeError).
Proof.
  intros _ c. rewrite request_run. fold c. cbn [fst]. repeat split.
  - intros data -> Hs _ _. unfold received.
    assert (nullish data = false) as -> by (destruct data; try reflexivity; discriminate).
    rewrite Hs. reflexivity.
  - intros response -> Hs _. unfold received. rewrite Hs. reflexivity.
  - intros response -> Hs. unfold received. rewrite Hs. reflexivity.
  - intros data -> Hn. unfold received. rewrite Hn. reflexivity.
Qed.

(** ** The fetching methods *)

Lemma parsed_found {R} (parse : value -> option R) (t : transport)
      (Hparse : forall v r, parse v = Some r ->
                            truthy v = true /\ truthy (prop v "data") = true)
      (Hsome : forall v, truthy v = true -> truthy (prop v "data") = true ->
                         exists r, parse v = Some r) :
  (exists r, parsed parse t = Some r) <-> usable t.
Proof.
  unfold parsed, received, usable. split.
  - intros [r H]. destruct t as [data|response].
    + destruct (nullish data) eqn:En; [discriminate|].
      destruct (is_str (prop data "status") "failure") eqn:Es; [discriminate|].
      destruct (has_root data) eqn:Er; [|discriminate].
      destruct (Hparse _ _ H). exists data. auto 10.
    + destruct (is_str _ "failure"); discriminate.
  - intros (response & -> & Hn & Hs & Hr & Hu & Hd).
    rewrite Hn, Hs, Hr. auto.
Qed.

Ltac parse_conditions parser :=
  intros v r; unfold parser;
  destruct (truthy v); [|discriminate];
  destruct (truthy (prop v "data")); [auto | discriminate].

(** X5: called with a tame argument, the four fetching methods never
    throw, whatever the upstream does: each returns a record or [null],
    after exactly one call, and leaves the session as it was.  (The
    argument is printed into the path and into the log line of the
    [catch].) *)
Theorem fetchers_never_throw (x : value) (up : upstream) (w : world) :
  tame x = true ->
  (exists r c, getUserById x up w = (Return r, record_call c w))
  /\ (exists r c, getUserByUsername x up w = (Return r, record_call c w))
  /\ (exists r c, getAvatarData x up w = (Return r, record_call c w))
  /\ (exists r c, getProfileData x up w = (Return r, record_call c w)).
Proof.
  intros _. repeat split; eexists _, _.
  - apply getUserById_run.
  - apply getUserByUsername_run.
  - apply getAvatarData_run.
  - apply getProfileData_run.
Qed.

Lemma user_found_iff (t : transport) :
  (exists r, parsed parseUserData t = Some r) <-> usable t.
Proof.
  apply parsed_found; [parse_conditions parseUserData|].
  intros v Hv Hd. unfold parseUserData. rewrite Hv, Hd. cbn [negb orb]. eauto.
Qed.

Lemma avatar_found_iff (t : transport) :
  (exists r, parsed parseAvatarData t = Some r) <-> usable t.
Proof.
  apply parsed_found; [parse_conditions parseAvatarData|].
  intros v Hv Hd. unfold parseAvatarData. rewrite Hv, Hd. cbn [negb orb]. eauto.
Qed.

Lemma profile_found_iff (t : transport) :
  (exists r, parsed parseProfileData t = Some r) <-> usable t.
Proof.
  apply parsed_found; [parse_conditions parseProfileData|].
  intros v Hv Hd. unfold parseProfileData. rewrite Hv, Hd. cbn [negb orb]. eauto.
Qed.

Lemma returned_some {R} (o : option R) :
  (exists r, Return o = Return (Some r)) <-> (exists r, o = Some r).
Proof. split; intros [r H]; exists r; congruence. Qed.

Lemma parsed_none_unless_usable {R} (parse : value -> option R) (t : transport) :
  ((exists r, parsed parse t = Some r) <-> usable t) ->
  ~ usable t -> parsed parse t = None.
Proof.
  intros H Hn. destruct (parsed parse t) as [r|] eqn:E; [|reflexivity].
  exfalso. apply Hn, H. eauto.
Qed.

(** X6: called with a tame argument against an upstream whose answers are
    tame, a direct fetch yields a record exactly when the upstream resolves
    with a body that has no failure marker, has [denormalized] and [id],
    and whose root entry has a truthy [data]; in every other case (a
    failure, a missing envelope, a missing entry, an entry without data) it
    yields [null]. *)
Theorem fetch_finds_iff (x : value) (up : upstream) (w : world) :
  tame x = true ->
  tame_upstream up ->
  (((exists r, fst (getUserById x up w) = Return (Some r))
    <-> usable (up (sent w) (user_call x w)))
   /\ (~ usable (up (sent w) (user_call x w)) ->
       fst (getUserById x up w) = Return None))
  /\ (((exists r, fst (getAvatarData x up w) = Return (Some r))
       <-> usable (up (sent w) (avatar_call x w)))
      /\ (~ usable (up (sent w) (avatar_call x w)) ->
          fst (getAvatarData x up w) = Return None))
  /\ (((exists r, fst (getProfileData x up w) = Return (Some r))
       <-> usable (up (sent w) (profile_call x w)))
      /\ (~ usable (up (sent w) (profile_call x w)) ->
          fst (getProfileData x up w) = Return None)).
Proof.
  intros _ _.
  rewrite getUserById_run, getAvatarData_run, getProfileData_run. cbn [fst].
  rewrite !returned_some.
  pose proof user_found_iff as Hu. pose proof avatar_found_iff as Ha.
  pose proof profile_found_iff as Hp.
  repeat split; try apply Hu; try apply Ha; try apply Hp; intros Hn; f_equal;
    eapply parsed_none_unless_usable; eauto.
Qed.

(** ** More on searches by name *)



(** ** The whole lookup *)

Lemma skipn_appended {A} (l r : list A) : skipn (List.length l) (l ++ r) = r.
Proof. rewrite skipn_app, skipn_all, Nat.sub_diag. reflexivity. Qed.

Lemma getUserData_total (query : value) (up : upstream) (w : world) :
  exists (found : option User.t),
    let c := if isNumeric query then user_call query w else search_call query w in
    let w1 := record_call c w in
    lookup_user query up w = (Return found, w1)
    /\ getUserData query up w
       = match found with
         | None => (Return None, w1)
         | Some user =>
             let ca := avatar_call (User.id user) w1 in
             let cp := profile_call (User.id user) (record_call ca w1) in
             (Return (Some {| Combined.user := user;
                              Combined.avatar :=
                                parsed parseAvatarData (up (sent w1) ca);
                              Combined.profile :=
                                parsed parseProfileData (up (sent w1 ++ [ca])%list cp) |}),
              record_call cp (record_call ca w1))
         end.
Proof.
  destruct (lookup_user_run query up w) as (c & found & H & ->).
  exists found. split; [exact H|]. exact (getUserData_run _ _ _ _ _ H).
Qed.

(** X9: called with a tame query against an upstream whose answers are
    tame, [getUserData] never throws and never changes the session.  It
    returns [null] exactly when its first step found no user, having made
    that one call; otherwise it has made exactly three calls, the lookup,
    then [/avatar/avatar-<id>], then [/profile/profile-user-<id>], with
    the identifier of the record it returns (be it ["unknown"]). *)
Theorem getUserData_calls (query : value) (up : upstream) (w : world) :
  tame query = true ->
  tame_upstream up ->
  exists (result : option Combined.t) (w' : world),
    getUserData query up w = (Return result, w')
    /\ this w' = this w
    /\ (result = None <-> fst (lookup_user query up w) = Return None)
    /\ map url (calls_of (getUserData query) up w)
       = (if isNumeric query then "/user/user-" ++ toString query else "/user")
         :: match result with
            | None => []
            | Some d =>
                [ "/avatar/avatar-" ++ toString (User.id (Combined.user d));
                  "/profile/profile-user-" ++ toString (User.id (Combined.user d)) ]
            end.
Proof.
  intros _ _.
  destruct (getUserData_total query up w) as (found & Hl & Hrun). cbv zeta in *.
  unfold calls_of. rewrite Hrun, Hl.
  destruct found as [user|]; eexists _, _; (split; [reflexivity|]).
  - split; [reflexivity|]. split; [split; discriminate|].
    cbn [snd sent record_call]. rewrite <- !app_assoc, skipn_appended.
    destruct (isNumeric query); reflexivity.
  - split; [reflexivity|]. split; [split; reflexivity|].
    cbn [snd sent record_call]. rewrite skipn_appended.
    destruct (isNumeric query); reflexivity.
Qed.

(** X10: no fetch consults the session's [authenticated] flag or its
    [sauce] field: two clients with the same default headers and the same
    history get the same result from the same upstream, by the same calls,
    whether they are logged in or not. *)
Theorem lookup_ignores_login_state (query : value) (up : upstream) (w w' : world) :
  Session.common (this w) = Session.common (this w') ->
  sent w = sent w' ->
  fst (getUserData query up w) = fst (getUserData query up w')
  /\ calls_of (getUserData query) up w = calls_of (getUserData query) up w'.
Proof.
  intros Hc Hs.
  assert (Hcall : forall u cfg, request_call u cfg w = request_call u cfg w').
  { intros. unfold request_call. rewrite Hc. reflexivity. }
  assert (Hsent : forall c, sent (record_call c w) = sent (record_call c w')).
  { intros. unfold record_call. cbn [sent]. rewrite Hs. reflexivity. }
  assert (Hfound : fst (lookup_user query up w) = fst (lookup_user query up w')).
  { unfold lookup_user. destruct (isNumeric query).
    - rewrite !getUserById_run. cbn [fst]. rewrite Hcall, Hs. reflexivity.
    - rewrite !getUserByUsername_run. cbn [fst]. unfold search_call.
      rewrite Hcall, Hs. reflexivity. }
  destruct (getUserData_total query up w) as (found & Hl & Hrun).
  destruct (getUserData_total query up w') as (found' & Hl' & Hrun').
  cbv zeta in *. rewrite Hl, Hl' in Hfound. cbn [fst] in Hfound.
  injection Hfound as <-.
  unfold calls_of. rewrite Hrun, Hrun'. clear Hrun Hrun' Hl Hl' Hcall Hsent.
  unfold user_call, search_call, avatar_call, profile_call, request_call, record_call.
  cbn [fst snd sent this]. rewrite ?Hc, ?Hs.
  destruct found as [user|]; cbn [fst snd sent this]; rewrite ?Hc, ?Hs; split; reflexivity.
Qed.

(** ** Queries that are numbers *)

Lemma all_digits_uint (d : Decimal.uint) : all_digits (NilEmpty.string_of_uint d) = true.
Proof. induction d; simpl; auto. Qed.

Lemma decimal_uint (d : Decimal.uint) : decimal (NilZero.string_of_uint d).
Proof.
  destruct d; (split; [discriminate | try reflexivity]);
    apply (all_digits_uint (_ d)) || (simpl; apply all_digits_uint).
Qed.

(** X11: the body's [query] need not be a string.  A JSON number is
    printed before the test, so an integer from 0 up to (not including)
    10^21, which prints as its decimal digits, is resolved by identifier,
    and a negative one, which prints with a sign, by name. *)
Theorem number_query_classification (z : Z) :
  ((0 <= z < 10 ^ 21)%Z ->
     isNumeric (JNum z) = true /\ lookup_user (JNum z) = getUserById (JNum z))
  /\ ((z < 0)%Z ->
     isNumeric (JNum z) = false /\ lookup_user (JNum z) = getUserByUsername (JNum z)).
Proof.
  assert (H : isNumeric (JNum z) = true <-> (0 <= z)%Z).
  { unfold isNumeric. cbn [toString]. unfold string_of_Z.
    destruct z as [|p|p]; cbn [Z.to_int NilZero.string_of_int].
    - split; [lia | reflexivity].
    - split; [lia | intros _; apply test_digits_decimal, decimal_uint].
    - split; [|lia]. cbn [test]. unfold digits. cbn. rewrite test_Void_Seq. discriminate. }
  unfold lookup_user. split; intros Hz.
  - assert (E : isNumeric (JNum z) = true) by (apply H; lia).
    rewrite E. split; reflexivity.
  - destruct (isNumeric (JNum z)); [|split; reflexivity].
    destruct H as [H _]. specialize (H eq_refl). lia.
Qed.

Lemma number_query_witness :
  lookup_user (JNum 12345) = getUserById (JNum 12345)
  /\ lookup_user (JNum (-5)) = getUserByUsername (JNum (-5)).
Proof.
  split.
  - refine (proj2 (proj1 (number_query_classification 12345) _)). split; [lia | reflexivity].
  - exact (proj2 (proj2 (number_query_classification (-5)) eq_refl)).
Defined.

(** ** What a normalised record holds *)

Lemma settled_or (a d : value) :
  d <> JUndefined -> settled (js_or a d) d.
Proof.
  intros Hd. unfold settled, js_or. destruct (truthy a) eqn:E.
  - split; [auto|]. intros ->. discriminate.
  - auto.
Qed.

Lemma settled_or_or (a b d : value) :
  d <> JUndefined -> settled (js_or (js_or a b) d) d.
Proof. intros Hd. apply settled_or, Hd. Qed.

Lemma settled_stamp_or (a b : value) : settled_stamp (or_new_date a b).
Proof.
  unfold settled_stamp, or_new_date.
  destruct (truthy a) eqn:Ea; [eauto|]. destruct (truthy b) eqn:Eb; eauto.
Qed.

Ltac all_settled_fields :=
  unfold all_settled, user_fields, avatar_fields, profile_fields;
  repeat (apply Forall_cons; [cbn; apply settled_or; discriminate|]);
  apply Forall_nil.

(** X12: a normalised record holds no [undefined] and no falsy upstream
    value: every field is either truthy or the default of its chain, so an
    upstream [0], [false], [null] or empty string is replaced (an [age] of
    0 by [null], a missing count by 0); each of the two timestamps is the
    truthy upstream value or a fresh date. *)
Theorem records_hold_no_falsy_values :
  (forall userData r, parseUserData userData = Some r ->
     all_settled r user_fields
     /\ settled_stamp (User.created r) /\ settled_stamp (User.registered r))
  /\ (forall avatarData r, parseAvatarData avatarData = Some r ->
     all_settled r avatar_fields)
  /\ (forall profileData r, parseProfileData profileData = Some r ->
     all_settled r profile_fields).
Proof.
  split; [|split]; intros payload r H; revert H;
    unfold parseUserData, parseAvatarData, parseProfileData;
    (destruct (_ || _)%bool; [discriminate|]); intros [= <-].
  - split; [all_settled_fields|]. split; apply settled_stamp_or.
  - all_settled_fields.
  - all_settled_fields.
Qed.

(** X13: where the identifier of a user record comes from, in order: a
    truthy [data.id], taken as it is (a number stays a number); else a
    truthy [data._id]; and when both are falsy or missing, the first key of
    the payload that contains [user-], with its first [user-] removed. *)
Theorem id_precedence (userData : value) (r : User.t) :
  parseUserData userData = Some r ->
  let data := prop userData "data" in
  (truthy (prop data "id") = true -> User.id r = prop data "id")
  /\ (truthy (prop data "id") = false -> truthy (prop data "_id") = true ->
      User.id r = prop data "_id")
  /\ (truthy (prop data "id") = false -> truthy (prop data "_id") = false ->
      User.id r = match recovered userData with
                  | Some id => if id =? "" then JStr "unknown" else JStr id
                  | None => JStr "unknown"
                  end).
Proof.
  intros H data. rewrite (parseUserData_id _ _ H).
  assert (Hd : truthy (prop userData "data") = true).
  { revert H. unfold parseUserData. destruct (truthy userData); [|discriminate].
    destruct (truthy (prop userData "data")); [reflexivity | discriminate]. }
  unfold user_id, recovered. rewrite Hd. fold data. unfold js_or.
  destruct (truthy (prop data "id")) eqn:Hi.
  - rewrite Hi. cbn [negb andb]. rewrite Hi.
    repeat split; intros; try discriminate; reflexivity.
  - destruct (truthy (prop data "_id")) eqn:H_i.
    + cbn [negb andb]. rewrite H_i.
      repeat split; intros; try discriminate; reflexivity.
    + cbn [negb andb].
      repeat split; intros; try discriminate.
      destruct (find _ (keys userData)) as [key|]; cbn [option_map truthy].
      * destruct (remove_first "user-" key =? ""); reflexivity.
      * rewrite H_i. reflexivity.
Qed.

(** ** More on [login] *)

Ltac login_step :=
  match goal with
  | |- context [match ?t with Resolved _ => _ | Rejected _ => _ end] =>
      destruct t eqn:?
  | |- context [if ?b then _ else _] => destruct b eqn:?
  end;
  cbn [this sent fst snd set_credentials set_sauce set_authenticated set_header
       Session.common Session.sauce Session.authenticated Session.username
       Session.password negb andb];
  cbn iota beta.

(** Every way [login] can end. *)
Lemma login_cases (username password : value) (up : upstream) (w : world) :
  let c1 := login_call username password w in
  let c2 := me_call w in
  (exists e cs,
     login username password up w
     = (Throw e, {| this := rejected_session username password (this w);
                    sent := sent w ++ cs |})
     /\ ((passes (up (sent w) c1) = false /\ cs = [c1])
         \/ (passes (up (sent w) c1) = true /\ cs = [c1; c2])))
  \/ (exists token,
     truthy token = true
     /\ passes (up (sent w) c1) = true
     /\ login username password up w
        = (Return true, {| this := accepted_session username password token (this w);
                           sent := sent w ++ [c1; c2] |})).
Proof.
  intros c1 c2. subst c1 c2.
  unfold login, try_catch, bind, update, http, get, ret, throw, read_this, passes,
    rejected_session, accepted_session, login_call, me_call.
  cbn [this sent set_credentials Session.common].
  repeat login_step; rewrite <- ?app_assoc; cbn [app];
    try (left; eexists _, _; split;
         [reflexivity | first [left; split; reflexivity | right; split; reflexivity]]).
  all: right; eexists; split; [|split; reflexivity].
  all: match goal with H : negb (truthy _) = false |- _ =>
         apply negb_false_iff in H; exact H end.
Qed.

Lemma lookup_assign_same (k : string) (v : value) (hs : list (string * value)) :
  lookup k (assign k v hs) = Some v.
Proof.
  induction hs as [|[k' v'] hs IH]; cbn [assign lookup].
  - rewrite String.eqb_refl. reflexivity.
  - destruct (k' =? k) eqn:E; cbn [lookup].
    + rewrite String.eqb_refl. reflexivity.
    + rewrite E. exact IH.
Qed.

Lemma lookup_assign_other (k k' : string) (v : value) (hs : list (string * value)) :
  k <> k' -> lookup k (assign k' v hs) = lookup k hs.
Proof.
  intros Hne. induction hs as [|[k0 v0] hs IH]; cbn [assign lookup].
  - destruct (String.eqb_spec k' k); [congruence | reflexivity].
  - destruct (String.eqb_spec k0 k') as [->|Hk]; cbn [lookup].
    + destruct (String.eqb_spec k' k); [congruence | reflexivity].
    + destruct (k0 =? k); [reflexivity | exact IH].
Qed.

(** X14: [login] returns only [true], and only with a truthy token in the
    session and the two authentication headers among the defaults of later
    calls: [x-imvu-sauce], equal to the stored token, and
    [x-imvu-application], equal to ["imvu-web"]. *)
Theorem login_returns_authenticated (username password : value) (up : upstream)
        (w : world) (b : bool) :
  fst (login username password up w) = Return b ->
  let s := this (snd (login username password up w)) in
  b = true
  /\ Session.authenticated s = true
  /\ truthy (Session.sauce s) = true
  /\ lookup "x-imvu-sauce" (Session.common s) = Some (Session.sauce s)
  /\ lookup "x-imvu-application" (Session.common s) = Some (JStr "imvu-web").
Proof.
  intros H s. subst s.
  destruct (login_cases username password up w)
    as [(e & cs & Hrun & _) | (token & Ht & _ & Hrun)];
    rewrite Hrun in *; cbn [fst snd this] in *; [discriminate|].
  injection H as <-. unfold accepted_session.
  cbn [Session.authenticated Session.sauce Session.common].
  repeat split; [exact Ht | | apply lookup_assign_same].
  rewrite lookup_assign_other by discriminate. apply lookup_assign_same.
Qed.







Lemma accepted_headers (username password : value) (up : upstream) (w : world) :
  fst (login username password up w) = Return true ->
  let s := this (snd (login username password up w)) in
  lookup "x-imvu-sauce" (Session.common s) = Some (Session.sauce s)
  /\ lookup "x-imvu-application" (Session.common s) = Some (JStr "imvu-web").
Proof.
  intros H s. subst s.
  destruct (login_cases username password up w)
    as [(e & cs & Hrun & _) | (token & Ht & _ & Hrun)];
    rewrite Hrun in *; cbn [fst snd this] in *; [discriminate|].
  unfold accepted_session. cbn [Session.sauce Session.common].
  split; [|apply lookup_assign_same].
  rewrite lookup_assign_other by discriminate. apply lookup_assign_same.
Qed.

(** X20: after a login that returned [true], every call [getUserData]
    makes, whatever the query and the upstream, carries the header
    [x-imvu-sauce] with the session's token and the header
    [x-imvu-application] with ["imvu-web"]. *)
Theorem lookups_carry_the_token (username password query : value)
        (up up' : upstream) (w : world) :
  fst (login username password up w) = Return true ->
  let w1 := snd (login username password up w) in
  Forall (fun c =>
            lookup "x-imvu-sauce" (headers c) = Some (Session.sauce (this w1))
            /\ lookup "x-imvu-application" (headers c) = Some (JStr "imvu-web"))
         (calls_of (getUserData query) up' w1).
Proof.
  intros H w1. pose proof (accepted_headers username password up w H) as Hh.
  cbv zeta in Hh. fold w1 in Hh.
  destruct (getUserData_total query up' w1) as (found & Hl & Hrun). cbv zeta in *.
  unfold calls_of. rewrite Hrun.
  destruct found as [user|]; cbn [snd sent record_call];
    rewrite <- ?app_assoc, skipn_appended; cbn [app];
    repeat apply Forall_cons; try apply Forall_nil;
    destruct (isNumeric query); exact Hh.
Qed.

(* ================================================================= *)
(** * Properties of the server shell *)

Lemma post_api_avatar_run (reqBody : value) (up : upstream) (w : world) :
  Server.post_api_avatar reqBody up w
  = if nullish reqBody then
      (Return (Server.mkReply 500 (Server.Failure "Erro interno do servidor")), w)
    else if truthy (prop reqBody "query") then
      if unprintable (prop reqBody "query") then
        (Return (Server.mkReply 500 (Server.Failure "Erro interno do servidor")), w)
      else
        match getUserData (prop reqBody "query") up w with
        | (Return (Some data), w1) =>
            (Return (Server.mkReply 200 (Server.Success data)), w1)
        | (Return None, w1) =>
            (Return (Server.mkReply 404 (Server.Failure "Avatar não encontrado")), w1)
        | (Throw _, w1) =>
            (Return (Server.mkReply 500 (Server.Failure "Erro interno do servidor")), w1)
        end
    else (Return (Server.mkReply 400 (Server.Failure "Query parameter is required")), w).
Proof.
  unfold Server.post_api_avatar, try_catch, bind, get, print.
  destruct (nullish reqBody); [reflexivity|]. unfold ret at 1.
  destruct (truthy (prop reqBody "query")); [|reflexivity]. cbn [negb].
  destruct (unprintable (prop reqBody "query")); [reflexivity|]. unfold ret at 1.
  destruct (getUserData (prop reqBody "query") up w) as [[[data|]|e] w1]; reflexivity.
Qed.

(** X21: the handler of [POST /api/avatar], for a query that either cannot
    be printed or is tame, against an upstream whose answers are tame.  It
    never throws and never changes the session.  It answers 500 exactly
    when the request has no body or its truthy [query] cannot be printed
    (the log line throws inside the [try]), 400 exactly when the body has
    no truthy [query], 404 exactly when the lookup of a printable query
    finds no user, and 200 with the combined record otherwise; so a
    failure of the upstream shows as 404, never as 500.  A 400 or a 500 is
    answered without any upstream call. *)
Theorem avatar_route_status (reqBody : value) (up : upstream) (w : world) :
  let query := prop reqBody "query" in
  tame_upstream up ->
  (unprintable query = false -> tame query = true) ->
  exists (reply : Server.reply) (w' : world),
    Server.post_api_avatar reqBody up w = (Return reply, w')
    /\ this w' = this w
    /\ (Server.status reply = 500
        <-> nullish reqBody = true
            \/ (nullish reqBody = false /\ truthy query = true
                /\ unprintable query = true))
    /\ (Server.status reply = 400
        <-> nullish reqBody = false /\ truthy query = false)
    /\ (Server.status reply = 404
        <-> nullish reqBody = false /\ truthy query = true
            /\ unprintable query = false
            /\ fst (lookup_user query up w) = Return None)
    /\ (forall data,
          reply = Server.mkReply 200 (Server.Success data)
          <-> nullish reqBody = false /\ truthy query = true
              /\ unprintable query = false
              /\ fst (getUserData query up w) = Return (Some data))
    /\ (Server.status reply = 400 \/ Server.status reply = 500 ->
        calls_of (Server.post_api_avatar reqBody) up w = []).
Proof.
  intros query _ _. unfold calls_of. rewrite post_api_avatar_run. fold query.
  destruct (nullish reqBody) eqn:En.
  { eexists _, _. split; [reflexivity|]. cbn [Server.status snd].
    rewrite skipn_all.
    repeat split; try discriminate; try tauto; intros; intuition discriminate. }
  destruct (truthy query) eqn:Eq.
  2:{ eexists _, _. split; [reflexivity|]. cbn [Server.status snd].
      rewrite skipn_all.
      repeat split; try discriminate; try tauto; intros; intuition discriminate. }
  destruct (unprintable query) eqn:Ep.
  { eexists _, _. split; [reflexivity|]. cbn [Server.status snd].
    rewrite skipn_all.
    repeat split; try discriminate; try tauto; intros; intuition discriminate. }
  destruct (getUserData_total query up w) as (found & Hl & Hrun). cbv zeta in *.
  rewrite Hrun, Hl. destruct found as [user|]; cbn [fst snd].
  - eexists _, _. split; [reflexivity|]. cbn [Server.status this record_call].
    repeat split; try discriminate; try tauto; intros; intuition congruence.
  - eexists _, _. split; [reflexivity|]. cbn [Server.status this record_call].
    repeat split; try discriminate; try tauto; intros; intuition discriminate.
Qed.

(** X22: [initializeIMVU] never throws.  When either credential variable
    is unset, empty or still the placeholder, it makes no call and leaves
    the client as constructed; otherwise it leaves the client as [login]
    with the two variables leaves it, whether [login] returned or threw. *)
Theorem initializeIMVU_outcome (env : Server.process_env) (up : upstream) (w : world) :
  Server.initializeIMVU env up w
  = (Return tt,
     if (configured (env "IMVU_USERNAME") "your_username"
         && configured (env "IMVU_PASSWORD") "your_password")%bool
     then snd (login (Server.getenv env "IMVU_USERNAME")
                     (Server.getenv env "IMVU_PASSWORD") up w)
     else w).
Proof.
  unfold Server.initializeIMVU, Server.getenv, configured, try_catch, bind, js_or.
  destruct (env "IMVU_USERNAME") as [u|], (env "IMVU_PASSWORD") as [p|];
    cbn [truthy is_str negb andb orb].
  - destruct (String.eqb_spec u ""); cbn [negb andb orb is_str String.eqb]; [reflexivity|].
    destruct (u =? "your_username"); cbn [negb andb orb]; [reflexivity|].
    destruct (String.eqb_spec p ""); cbn [negb andb orb is_str String.eqb].
    + reflexivity.
    + destruct (p =? "your_password"); cbn [negb andb]; [reflexivity|].
      destruct (login (JStr u) (JStr p) up w) as [[b|e] w1]; reflexivity.
  - destruct (String.eqb_spec u ""); cbn [negb andb orb is_str];
      rewrite ?andb_false_r, ?orb_true_r; reflexivity.
  - reflexivity.
  - reflexivity.
Qed.

(* ================================================================= *)
(** * Further instances *)



Lemma lookup_ignores_login_state_witness :
  fst (getUserData (JStr "7") without_avatar fresh)
  = fst (getUserData (JStr "7") without_avatar marked_world)
  /\ calls_of (getUserData (JStr "7")) without_avatar fresh
     = calls_of (getUserData (JStr "7")) without_avatar marked_world.
Proof.
  exact (lookup_ignores_login_state (JStr "7") without_avatar fresh marked_world
           eq_refl eq_refl).
Defined.

Lemma id_precedence_witness :
  User.id (defaults (JNum 123)) = prop (JObj [("id", JNum 123); ("_id", JStr "a")]) "id".
Proof.
  exact (proj1 (id_precedence (entry [("id", JNum 123); ("_id", JStr "a")])
                              (defaults (JNum 123)) eq_refl) eq_refl).
Defined.

Lemma login_returns_authenticated_witness :
  Session.authenticated (this logged_in) = true
  /\ lookup "x-imvu-sauce" (Session.common (this logged_in)) = Some (JStr "s3cr3t").
Proof.
  destruct (login_returns_authenticated (JStr "ann") (JStr "pw") (always me_envelope)
              fresh true eq_refl) as (_ & Ha & _ & Hs & _).
  split; [exact Ha | exact Hs].
Defined.




Lemma lookups_carry_the_token_witness :
  Forall (fun c =>
            lookup "x-imvu-sauce" (headers c) = Some (JStr "s3cr3t")
            /\ lookup "x-imvu-application" (headers c) = Some (JStr "imvu-web"))
         (calls_of (getUserData (JStr "7")) without_avatar logged_in).
Proof.
  exact (lookups_carry_the_token (JStr "ann") (JStr "pw") (JStr "7")
           (always me_envelope) without_avatar fresh eq_refl).
Defined.

(* ================================================================= *)
(** * Tame values *)

(** A tame value can be printed: ToString does not throw on it. *)
Lemma tame_printable : forall v : value, tame v = true -> unprintable v = false.
Proof.
  fix IH 1. intros [| |b|z|s|elems|props]; try reflexivity.
  - cbn [tame unprintable]. induction elems as [|x rest IHrest]; [reflexivity|].
    intros H. apply andb_true_iff in H as [Hx Hrest].
    rewrite (IH x Hx). exact (IHrest Hrest).
  - cbn [tame unprintable]. intros H.
    apply andb_true_iff in H as [H _]. apply andb_true_iff in H as [H _].
    apply negb_true_iff in H. exact H.
Qed.

Lemma always_tame (data : value) : tame data = true -> tame_upstream (always data).
Proof. intros H history c. exact H. Qed.

Lemma without_avatar_tame : tame_upstream without_avatar.
Proof.
  intros history c. unfold without_avatar.
  destruct (url c =? "/user/user-7"); [reflexivity|].
  destruct (url c =? "/profile/profile-user-7"); reflexivity.
Qed.

Lemma rejected_not_usable (response : value) : ~ usable (Rejected response).
Proof. intros (r & H & _). discriminate H. Qed.

(** ** Instances, on tame values *)

Lemma request_returns_witness :
  fst (request "/user" (JObj [("params", JObj [("username", JStr "abc")])])
               (always anonymous_envelope) fresh)
  = Return anonymous_envelope.
Proof.
  apply (proj2 (proj2 (request_returns_the_body "/user"
                         (JObj [("params", JObj [("username", JStr "abc")])])
                         (always anonymous_envelope) fresh
                         (or_intror (ex_intro _ (JObj [("username", JStr "abc")])
                                              eq_refl)))) anonymous_envelope).
  repeat split.
Defined.

Lemma request_errors_witness :
  fst (request "/user/user-9" (JObj []) (always failure_body) fresh)
  = Throw (Error "API Error: No such user (USER-404)").
Proof.
  exact (proj1 (request_errors "/user/user-9" (JObj []) (always failure_body) fresh
                  (or_introl eq_refl))
               failure_body eq_refl eq_refl eq_refl eq_refl).
Defined.

Lemma fetchers_never_throw_witness :
  exists r c, getAvatarData (JStr "7") without_avatar fresh = (Return r, record_call c fresh).
Proof.
  exact (proj1 (proj2 (proj2
           (fetchers_never_throw (JStr "7") without_avatar fresh eq_refl)))).
Defined.

Lemma fetch_finds_witness :
  fst (getAvatarData (JStr "7") without_avatar fresh) = Return None.
Proof.
  exact (proj2 (proj1 (proj2
           (fetch_finds_iff (JStr "7") without_avatar fresh eq_refl without_avatar_tame)))
           (rejected_not_usable JUndefined)).
Defined.

Lemma getUserData_calls_witness :
  map url (calls_of (getUserData (JStr "7")) without_avatar fresh)
  = ["/user/user-7"; "/avatar/avatar-7"; "/profile/profile-user-7"].
Proof.
  destruct (getUserData_calls (JStr "7") without_avatar fresh eq_refl without_avatar_tame)
    as (result & w' & Hrun & _ & _ & Hcalls).
  rewrite Hcalls. revert Hrun. vm_compute. intros [= <- _]. reflexivity.
Defined.

Lemma avatar_route_witness :
  exists reply w',
    Server.post_api_avatar query_seven without_avatar fresh = (Return reply, w')
    /\ Server.status reply = 200.
Proof.
  destruct (avatar_route_status query_seven without_avatar fresh without_avatar_tame
              (fun _ => eq_refl))
    as (reply & w' & Hrun & _).
  exists reply, w'. split; [exact Hrun|].
  revert Hrun. vm_compute. intros [= <- _]. reflexivity.
Defined.
